(** * logrus-prefixed-formatter: the line formatter of [formatter.go]

    A shallow embedding of [TextFormatter.Format] and of the helpers it
    calls ([printColored], [appendKeyValue], [needsQuoting],
    [extractPrefix], [prefixFieldClashes]), followed by the properties of
    the rendering that the specification states.

    Go strings are byte sequences: they are modelled as [string], whose
    characters are the 8-bit [ascii]. A [bytes.Buffer] is modelled by its
    contents, threaded through the writers. *)

From Stdlib Require Import ZArith NArith Ascii String List DecimalString Lia.
From stdpp Require Import base option list strings gmap sorting.

Local Open Scope N_scope.

(** ** Bytes and runes *)

Definition byte (c : ascii) : N := N_of_ascii c.

Definition between (lo hi x : N) : bool := (lo <=? x) && (x <=? hi).

Definition byte_at (s : string) (i : nat) : N :=
  match String.get i s with Some c => byte c | None => 0 end.

(** [s[i:]] and [s[i:j]] *)
Definition slice_from (i : nat) (s : string) : string :=
  String.substring i (String.length s - i) s.

Definition slice (i j : nat) (s : string) : string :=
  String.substring i (j - i) s.

Definition nl : string := String (ascii_of_N 10) "".
Definition dquote : string := String (ascii_of_N 34) "".
Definition backslash : string := String (ascii_of_N 92) "".

(** ** Package [unicode/utf8] *)
Module utf8.

Definition RuneError : N := 0xFFFD.
Definition RuneSelf : N := 0x80.

(** The table [first] with [acceptRanges]: for a leading byte, the length
    of the encoding and the bounds of the second byte. *)
Definition first (s0 : N) : option (nat * N * N) :=
  if between 0xC2 0xDF s0 then Some (2%nat, 0x80, 0xBF)
  else if s0 =? 0xE0 then Some (3%nat, 0xA0, 0xBF)
  else if between 0xE1 0xEC s0 then Some (3%nat, 0x80, 0xBF)
  else if s0 =? 0xED then Some (3%nat, 0x80, 0x9F)
  else if between 0xEE 0xEF s0 then Some (3%nat, 0x80, 0xBF)
  else if s0 =? 0xF0 then Some (4%nat, 0x90, 0xBF)
  else if between 0xF1 0xF3 s0 then Some (4%nat, 0x80, 0xBF)
  else if s0 =? 0xF4 then Some (4%nat, 0x80, 0x8F)
  else None.

Definition cont (b : N) : bool := between 0x80 0xBF b.

(** [utf8.DecodeRuneInString]: the first rune of [s] and its width. *)
Definition DecodeRuneInString (s : string) : N * nat :=
  match s with
  | EmptyString => (RuneError, 0%nat)
  | String c0 t =>
    let s0 := byte c0 in
    if s0 <? RuneSelf then (s0, 1%nat)
    else
      match first s0 with
      | None => (RuneError, 1%nat)
      | Some (sz, lo, hi) =>
        if (String.length s <? sz)%nat then (RuneError, 1%nat)
        else
          let s1 := byte_at s 1 in
          if negb (between lo hi s1) then (RuneError, 1%nat)
          else if (sz <=? 2)%nat then
            (N.lor (N.shiftl (N.land s0 0x1F) 6) (N.land s1 0x3F), 2%nat)
          else
            let s2 := byte_at s 2 in
            if negb (cont s2) then (RuneError, 1%nat)
            else if (sz <=? 3)%nat then
              (N.lor (N.lor (N.shiftl (N.land s0 0x0F) 12)
                            (N.shiftl (N.land s1 0x3F) 6))
                     (N.land s2 0x3F), 3%nat)
            else
              let s3 := byte_at s 3 in
              if negb (cont s3) then (RuneError, 1%nat)
              else
                (N.lor (N.lor (N.lor (N.shiftl (N.land s0 0x07) 18)
                                     (N.shiftl (N.land s1 0x3F) 12))
                              (N.shiftl (N.land s2 0x3F) 6))
                       (N.land s3 0x3F), 4%nat)
      end
  end.

Definition RuneStart (b : N) : bool := negb (N.land b 0xC0 =? 0x80).

(** The loop [for start--; start >= lim; start-- { if RuneStart(s[start])
    { break } }]; it looks at [end-2], [end-3], [end-4] at most, since
    [lim >= end - UTFMax]. *)
Fixpoint back_to_start (n : nat) (s : string) (lim start : Z) : Z :=
  match n with
  | O => start
  | S n' =>
    if (start <? lim)%Z then start
    else if RuneStart (byte_at s (Z.to_nat start)) then start
    else back_to_start n' s lim (start - 1)%Z
  end.

(** [utf8.DecodeLastRuneInString]: the last rune of [s] and its width. *)
Definition DecodeLastRuneInString (s : string) : N * nat :=
  let e := Z.of_nat (String.length s) in
  if (e =? 0)%Z then (RuneError, 0%nat)
  else
    let r := byte_at s (Z.to_nat (e - 1)) in
    if r <? RuneSelf then (r, 1%nat)
    else
      let lim := Z.max 0 (e - 4) in
      let start := back_to_start 4 s lim (e - 2) in
      let start := Z.max 0 start in
      let '(r, size) :=
        DecodeRuneInString (slice (Z.to_nat start) (Z.to_nat e) s) in
      if (start + Z.of_nat size =? e)%Z then (r, size) else (RuneError, 1%nat).

(** [for i, r := range s]: the runes of [s] in order, each with the bytes
    it was decoded from. [skip] counts the bytes of the current rune that
    are still to be passed over. *)
Fixpoint range_go (skip : nat) (s : string) : list (N * string) :=
  match s with
  | EmptyString => []
  | String _ t =>
    match skip with
    | S k => range_go k t
    | O =>
      let '(r, w) := DecodeRuneInString s in
      (r, String.substring 0 w s) :: range_go (w - 1) t
    end
  end.

Definition range (s : string) : list (N * string) := range_go 0 s.

End utf8.

(** ** Package [unicode] *)
Module unicode.

(** [unicode.IsSpace]: the Latin-1 cases and the [White_Space] table. *)
Definition IsSpace (r : N) : bool :=
  if r <=? 0xFF then
    between 9 13 r || (r =? 0x20) || (r =? 0x85) || (r =? 0xA0)
  else
    (r =? 0x1680) || between 0x2000 0x200A r || between 0x2028 0x2029 r
    || (r =? 0x202F) || (r =? 0x205F) || (r =? 0x3000).

End unicode.

(** ** Package [strings] *)
Module strings.

(** [strings.ToUpper] on ASCII input, the only input the formatter gives
    it (the level names of logrus); other bytes are kept. *)
Definition upper_byte (c : ascii) : ascii :=
  if between 97 122 (byte c) then ascii_of_N (byte c - 32) else c.

Fixpoint ToUpper (s : string) : string :=
  match s with
  | EmptyString => EmptyString
  | String c t => String (upper_byte c) (ToUpper t)
  end.

(** [strings.TrimLeftFunc s f]: drop the leading runes that satisfy [f]. *)
Fixpoint drop_runes (f : N -> bool) (l : list (N * string)) : string :=
  match l with
  | [] => EmptyString
  | (r, bs) :: l' =>
    if f r then drop_runes f l'
    else bs +:+ String.concat "" (map snd l')
  end.

Definition TrimLeftFunc (s : string) (f : N -> bool) : string :=
  drop_runes f (utf8.range s).

(** [lastIndexFunc s f false], as an [option]: the byte index of the last
    rune that does not satisfy [f]. The loop visits at most one rune per
    byte of [s]. *)
Fixpoint lastIndexFunc_go (n : nat) (s : string) (f : N -> bool) (i : nat)
  : option nat :=
  match n with
  | O => None
  | S n' =>
    if (i =? 0)%nat then None
    else
      let '(r, size) := utf8.DecodeLastRuneInString (slice 0 i s) in
      let i := (i - size)%nat in
      if f r then lastIndexFunc_go n' s f i else Some i
  end.

Definition lastIndexFunc (s : string) (f : N -> bool) : option nat :=
  lastIndexFunc_go (String.length s) s f (String.length s).

Definition TrimRightFunc (s : string) (f : N -> bool) : string :=
  match lastIndexFunc s f with
  | Some i =>
    if utf8.RuneSelf <=? byte_at s i then
      let '(_, wid) := utf8.DecodeRuneInString (slice_from i s) in
      slice 0 (i + wid) s
    else slice 0 (i + 1) s
  | None => slice 0 0 s
  end.

Definition TrimFunc (s : string) (f : N -> bool) : string :=
  TrimRightFunc (TrimLeftFunc s f) f.

Definition TrimSpace (s : string) : string := TrimFunc s unicode.IsSpace.

End strings.

(** ** Package [strconv] *)
Module strconv.

(** ["0123456789abcdef"[d]] *)
Definition lowerhex (d : N) : string :=
  String (ascii_of_N (if d <? 10 then 48 + d else 87 + d)) "".

(** The hexadecimal digits of [r] from bit [4*n - 1] down. *)
Fixpoint hex (n : nat) (r : N) : string :=
  match n with
  | O => EmptyString
  | S n' => lowerhex (N.land (N.shiftr r (4 * N.of_nat n')) 0xF) +:+ hex n' r
  end.

Definition ValidRune (r : N) : bool :=
  (r <? 0xD800) || between 0xE000 0x10FFFF r.

Section Quote.

(** [strconv.IsPrint] above Latin-1 is a search in tables generated
    from the Unicode database; the tables are a parameter. *)
Variable isPrintTable : N -> bool.

Definition IsPrint (r : N) : bool :=
  if r <=? 0xFF then
    between 0x20 0x7E r || (between 0xA1 0xFF r && negb (r =? 0xAD))
  else isPrintTable r.

(** [appendEscapedRune] with the double quote as quote character and
    no restriction to ASCII or graphic runes; [bs] are the bytes [r]
    was decoded from. The decoder accepts the canonical encoding only,
    so [bs] is what [utf8.AppendRune] writes for [r]. *)
Definition appendEscapedRune (r : N) (bs : string) : string :=
  if (r =? 34) || (r =? 92) then backslash +:+ String (ascii_of_N r) ""
  else if IsPrint r then bs
  else if r =? 7 then backslash +:+ "a"
  else if r =? 8 then backslash +:+ "b"
  else if r =? 12 then backslash +:+ "f"
  else if r =? 10 then backslash +:+ "n"
  else if r =? 13 then backslash +:+ "r"
  else if r =? 9 then backslash +:+ "t"
  else if r =? 11 then backslash +:+ "v"
  else if (r <? 32) || (r =? 0x7F) then backslash +:+ "x" +:+ hex 2 r
  else
    let r := if ValidRune r then r else 0xFFFD in
    if r <? 0x10000 then backslash +:+ "u" +:+ hex 4 r
    else backslash +:+ "U" +:+ hex 8 r.

(** One turn of the loop of [quoteWith]. *)
Definition quote_rune (rb : N * string) : string :=
  let '(r, bs) := rb in
  if (String.length bs =? 1)%nat && (r =? utf8.RuneError) then
    backslash +:+ "x" +:+ hex 2 (byte_at bs 0)
  else appendEscapedRune r bs.

(** [strconv.Quote] *)
Definition Quote (s : string) : string :=
  dquote +:+ String.concat "" (map quote_rune (utf8.range s)) +:+ dquote.

End Quote.

(** [strconv.Itoa] on mathematical integers. *)
Definition Itoa (z : Z) : string := NilZero.string_of_int (Z.to_int z).

End strconv.

(** ** Package [fmt] *)
Module fmt.

(** The dynamic values an [interface{}] field can hold. The formatter
    tells strings and values with an [Error] method apart from the rest;
    a value of any other type is given by what package [fmt] prints for
    it under the three verbs the formatter uses. *)
Inductive Value : Type :=
| VString (s : string)
| VError (errmsg : string)
| VInt (n : Z)
| VBool (b : bool)
| VNil
| VOther (as_v as_plus_v as_s : string).

Definition bool_text (b : bool) : string := if b then "true" else "false".

(** [fmt.Fprint(b, v)], which formats with [%v]. *)
Definition Fprint (v : Value) : string :=
  match v with
  | VString s => s
  | VError m => m
  | VInt n => strconv.Itoa n
  | VBool b => bool_text b
  | VNil => "<nil>"
  | VOther x _ _ => x
  end.

(** Verb [%+v]. *)
Definition plus_v (v : Value) : string :=
  match v with
  | VOther _ x _ => x
  | _ => Fprint v
  end.

(** Verb [%s]. *)
Definition verb_s (v : Value) : string :=
  match v with
  | VString s => s
  | VError m => m
  | VInt n => "%!s(int=" +:+ strconv.Itoa n +:+ ")"
  | VBool b => "%!s(bool=" +:+ bool_text b +:+ ")"
  | VNil => "%!s(<nil>)"
  | VOther _ _ x => x
  end.

Fixpoint padding (n : nat) (c : string) : string :=
  match n with O => EmptyString | S n' => c +:+ padding n' c end.

(** Verb [%+5s] on a string: right-aligned in a field of at least five
    characters; the plus flag has no effect on strings. The width counts
    runes, which are bytes for the level names this is used on. *)
Definition pad5 (s : string) : string :=
  padding (5 - String.length s) " " +:+ s.

(** Verb [%04d]: zero padding to width four, the sign taking one place. *)
Definition verb_04d (z : Z) : string :=
  let digits := strconv.Itoa (Z.abs z) in
  if (z <? 0)%Z then "-" +:+ padding (3 - String.length digits) "0" +:+ digits
  else padding (4 - String.length digits) "0" +:+ digits.

End fmt.
Export fmt(Value(..)).

(** ** Package [sort] *)
Module sort.

(** [sort.Strings]: ascending in the byte-wise order of Go strings. The
    order is total and antisymmetric, so the result does not depend on
    the sorting algorithm. *)
Definition Strings (l : list string) : list string := merge_sort String.le l.

End sort.

(** ** Package [regexp], for the one pattern of the formatter *)
Module regexp.

(** The part [(.*?)\]] of the pattern at the head of [s]: the lazy star
    first tries to stop, so the match ends at the first right bracket;
    [.] takes any rune but the newline. Both bytes are ASCII and never
    part of a longer rune, so the scan goes byte by byte. The result is
    the text matched. *)
Fixpoint lazy_any_rbracket (s : string) : option string :=
  match s with
  | EmptyString => None
  | String c t =>
    if byte c =? 93 then Some (String c EmptyString)
    else if byte c =? 10 then None
    else String c <$> lazy_any_rbracket t
  end.

(** [regexp.MustCompile("^\\[(.*?)\\]").FindString(s)], with [None] when
    [MatchString(s)] is false. *)
Definition FindString (s : string) : option string :=
  match s with
  | EmptyString => None
  | String c t =>
    if byte c =? 91 then String c <$> lazy_any_rbracket t else None
  end.

End regexp.

(** ** Package [time] *)
Module time.

(** An instant together with the zone it is shown in. *)
Record Time : Type := { unixNano : Z; zoneName : string; zoneOffset : Z }.

(** [time.Stamp] *)
Definition Stamp : string := "Jan _2 15:04:05".

(** [time.Second], in nanoseconds. *)
Definition Second : Z := 1000000000.

End time.

(** ** Package [ansi] (github.com/mgutz/ansi) *)
Module ansi.

(** The escape sequences the formatter takes from the package, and its
    style parser [ColorCode]. *)
Record lib : Type := {
  Reset : string;
  White : string;
  Blue : string;
  Yellow : string;
  Red : string;
  LightBlack : string;
  ColorCode : string -> string
}.

End ansi.

(** ** Package [logrus] (github.com/Sirupsen/logrus) *)
Module logrus.

(** [type Level uint8], with its constants in the order of their [iota]. *)
Definition Level : Type := N.

Definition PanicLevel : Level := 0.
Definition FatalLevel : Level := 1.
Definition ErrorLevel : Level := 2.
Definition WarnLevel : Level := 3.
Definition InfoLevel : Level := 4.
Definition DebugLevel : Level := 5.

(** [Level.String] *)
Definition Level_String (level : Level) : string :=
  if level =? DebugLevel then "debug"
  else if level =? InfoLevel then "info"
  else if level =? WarnLevel then "warning"
  else if level =? ErrorLevel then "error"
  else if level =? FatalLevel then "fatal"
  else if level =? PanicLevel then "panic"
  else "unknown".

(** [logrus.Fields], a [map[string]interface{}]. *)
Abbreviation Fields := (gmap string Value).

(** [m[k]]: a missing key gives the zero value, the nil interface. *)
Definition index (m : Fields) (k : string) : Value := default VNil (m !! k).

Module Entry.
Record t : Type := {
  Data : Fields;
  Time : time.Time;
  Level : Level;
  Message : string
}.
End Entry.

End logrus.

(** * Package [prefixed] *)

Inductive result (A : Type) : Type :=
| Ok (a : A)
| Panic (reason : string).
Arguments Ok {A} a.
Arguments Panic {A} reason.

Definition nil_dereference : string :=
  "invalid memory address or nil pointer dereference".

(** A Go [error]; [None] is [nil]. *)
Definition error : Type := option string.

(** What a call reads besides its arguments: the package variable
    [isTerminal] set by [init], [runtime.GOOS], the time elapsed since
    [baseTimestamp] when the call is made (nanoseconds), and the order in
    which the runtime iterates over a map. *)
Record Env : Type := {
  isTerminal : bool;
  GOOS : string;
  since_baseTimestamp : Z;
  range_keys : logrus.Fields -> list string
}.

(** The iteration yields each key of the map once, in some order. *)
Definition range_ok (env : Env) : Prop :=
  forall m : logrus.Fields, range_keys env m ≡ₚ (map_to_list m).*1.

(** [int(time.Since(baseTimestamp) / time.Second)]; integer division
    truncates towards zero. *)
Definition miniTS (env : Env) : Z := Z.quot (since_baseTimestamp env) time.Second.

Module Colors.
Record t : Type := {
  Debug : string;
  Info : string;
  Warn : string;
  Error : string;
  Prefix : string;
  Default : string
}.
End Colors.

Record TextFormatter : Type := {
  ForceColors : bool;
  DisableColors : bool;
  DisableTimestamp : bool;
  ShortTimestamp : bool;
  TimestampFormat : string;
  DisableSorting : bool;
  (** a pointer: [None] is [nil] *)
  Colors : option Colors.t
}.

(** [needsQuoting]: despite its name it answers whether the text can be
    left bare. *)
Definition bare_rune (ch : N) : bool :=
  between 97 122 ch || between 65 90 ch || between 48 57 ch
  || (ch =? 45) || (ch =? 46).

Fixpoint needsQuoting_loop (runes : list (N * string)) : bool :=
  match runes with
  | [] => true
  | (ch, _) :: rest => if negb (bare_rune ch) then false else needsQuoting_loop rest
  end.

Definition needsQuoting (text : string) : bool :=
  needsQuoting_loop (utf8.range text).

(** [extractPrefix] *)
Definition extractPrefix (msg : string) : string * string :=
  match regexp.FindString msg with
  | Some m =>
    (slice 1 (String.length m - 1) m,
     strings.TrimSpace (slice_from (String.length m) msg))
  | None => (EmptyString, msg)
  end.

(** [prefixFieldClashes]: the map is updated in place; the function
    returns the map after the call. *)
Definition prefixFieldClashes (data : logrus.Fields) : logrus.Fields :=
  let data :=
    match data !! "time" with
    | Some _ => <["fields.time" := logrus.index data "time"]> data
    | None => data
    end in
  let data :=
    match data !! "msg" with
    | Some _ => <["fields.msg" := logrus.index data "msg"]> data
    | None => data
    end in
  match data !! "level" with
  | Some _ => <["fields.level" := logrus.index data "level"]> data
  | None => data
  end.

Section Formatter.

(** [strconv]'s table of printable runes above Latin-1,
    [Time.Format] of package [time], and package [ansi]. *)
Variable isPrintTable : N -> bool.
Variable Time_Format : time.Time -> string -> string.
Variable A : ansi.lib.

Definition reset : string := ansi.Reset A.

(** [appendKeyValue]; the buffer is returned. *)
Definition appendKeyValue (b : string) (key : string) (value : Value) : string :=
  let b := b +:+ key in
  let b := b +:+ "=" in
  let b :=
    match value with
    | VString value =>
      if needsQuoting value then b +:+ value
      else b +:+ strconv.Quote isPrintTable value
    | VError errmsg =>
      if needsQuoting errmsg then b +:+ errmsg
      else b +:+ strconv.Quote isPrintTable errmsg
    | _ => b +:+ fmt.Fprint value
    end in
  b +:+ " ".

(** The role's colour of the palette if set, the built-in one if not. *)
Definition pick (builtin configured : string) : string :=
  if String.eqb configured "" then builtin else ansi.ColorCode A configured.

(** The [switch entry.Level] of [printColored]. *)
Definition levelColor (c : Colors.t) (level : logrus.Level) : string :=
  if level =? logrus.DebugLevel then pick (ansi.White A) (Colors.Debug c)
  else if level =? logrus.InfoLevel then pick (ansi.Blue A) (Colors.Info c)
  else if level =? logrus.WarnLevel then pick (ansi.Yellow A) (Colors.Warn c)
  else if (level =? logrus.ErrorLevel) || (level =? logrus.FatalLevel)
          || (level =? logrus.PanicLevel)
  then pick (ansi.Red A) (Colors.Error c)
  else pick (ansi.White A) (Colors.Default c).

Definition levelText (level : logrus.Level) : string :=
  if negb (level =? logrus.WarnLevel)
  then strings.ToUpper (logrus.Level_String level)
  else "WARN".

Definition prefixColor (c : Colors.t) : string :=
  pick (ansi.LightBlack A) (Colors.Prefix c).

(** [fmt.Sprintf("%s %s:%s", prefixColor, prefixValue, reset)] *)
Definition annotation (c : Colors.t) (prefixValue : string) : string :=
  prefixColor c +:+ " " +:+ prefixValue +:+ ":" +:+ reset.

(** The variables [prefix] and [message] of [printColored] when the
    head of the line is written. *)
Definition prefix_message (c : Colors.t) (entry : logrus.Entry.t)
  : string * string :=
  match logrus.Entry.Data entry !! "prefix" with
  | Some prefixValue =>
    (annotation c (fmt.verb_s prefixValue), logrus.Entry.Message entry)
  | None =>
    let '(prefixValue, trimmedMsg) := extractPrefix (logrus.Entry.Message entry) in
    if negb (String.eqb prefixValue "")
    then (annotation c prefixValue, trimmedMsg)
    else (EmptyString, logrus.Entry.Message entry)
  end.

(** One turn of the loop over [keys] in [printColored]. *)
Definition colored_field (lc : string) (data : logrus.Fields) (b k : string)
  : string :=
  b +:+ " " +:+ lc +:+ k +:+ reset +:+ "=" +:+ fmt.plus_v (logrus.index data k).

(** [printColored]. Every path reads a field of [f.Colors] before it
    writes anything, which panics when the pointer is nil. *)
Definition printColored (env : Env) (f : TextFormatter) (b : string)
    (entry : logrus.Entry.t) (keys : list string) (timestampFormat : string)
  : result string :=
  match Colors f with
  | None => Panic nil_dereference
  | Some c =>
    let lc := levelColor c (logrus.Entry.Level entry) in
    let lt := levelText (logrus.Entry.Level entry) in
    let '(prefix, message) := prefix_message c entry in
    let stamp :=
      if ShortTimestamp f then fmt.verb_04d (miniTS env)
      else Time_Format (logrus.Entry.Time entry) timestampFormat in
    let b :=
      b +:+ prefixColor c +:+ "[" +:+ stamp +:+ "]" +:+ reset +:+ " "
        +:+ lc +:+ fmt.pad5 lt +:+ reset +:+ prefix +:+ " " +:+ message in
    Ok (fold_left (colored_field lc (logrus.Entry.Data entry)) keys b)
  end.

(** The keys collected by the first loop of [Format], sorted unless
    sorting is disabled. *)
Definition collect_keys (env : Env) (f : TextFormatter) (data : logrus.Fields)
  : list string :=
  let keys := filter (λ k, k ≠ "prefix") (range_keys env data) in
  if DisableSorting f then keys else sort.Strings keys.

Definition isColored (env : Env) (f : TextFormatter) : bool :=
  let isColorTerminal := isTerminal env && negb (String.eqb (GOOS env) "windows") in
  (ForceColors f || isColorTerminal) && negb (DisableColors f).

(** The [else] branch of [Format]: the plain rendering. *)
Definition printPlain (f : TextFormatter) (b : string)
    (entry : logrus.Entry.t) (keys : list string) (timestampFormat : string)
  : string :=
  let b :=
    if negb (DisableTimestamp f)
    then appendKeyValue b "time"
           (VString (Time_Format (logrus.Entry.Time entry) timestampFormat))
    else b in
  let b :=
    appendKeyValue b "level"
      (VString (logrus.Level_String (logrus.Entry.Level entry))) in
  let b :=
    if negb (String.eqb (logrus.Entry.Message entry) "")
    then appendKeyValue b "msg" (VString (logrus.Entry.Message entry))
    else b in
  fold_left
    (fun b key => appendKeyValue b key (logrus.index (logrus.Entry.Data entry) key))
    keys b.

(** [TextFormatter.Format]: the entry after the call, whose [Data]
    has been updated in place, and what the call returns. *)
Definition Format (env : Env) (f : TextFormatter) (entry : logrus.Entry.t)
  : logrus.Entry.t * result (string * error) :=
  let keys := collect_keys env f (logrus.Entry.Data entry) in
  let b := EmptyString in
  let entry :=
    {| logrus.Entry.Data := prefixFieldClashes (logrus.Entry.Data entry);
       logrus.Entry.Time := logrus.Entry.Time entry;
       logrus.Entry.Level := logrus.Entry.Level entry;
       logrus.Entry.Message := logrus.Entry.Message entry |} in
  let timestampFormat :=
    if String.eqb (TimestampFormat f) "" then time.Stamp else TimestampFormat f in
  let written :=
    if isColored env f then printColored env f b entry keys timestampFormat
    else Ok (printPlain f b entry keys timestampFormat) in
  (entry,
   match written with
   | Ok b => Ok (b +:+ nl, None)
   | Panic reason => Panic reason
   end).

End Formatter.

(** ** Vocabulary of the properties *)

(** The bytes of a string. *)
Definition bytes (s : string) : list N := map byte (list_ascii_of_string s).

(** The characters that may stay bare: ASCII letters, ASCII digits, the
    hyphen and the period. *)
Definition bare_byte (b : N) : Prop :=
  (97 <= b <= 122) \/ (65 <= b <= 90) \/ (48 <= b <= 57) \/ b = 45 \/ b = 46.

Definition all_bare (s : string) : Prop := Forall bare_byte (bytes s).

(** The number of newline bytes of a string. *)
Fixpoint count_nl (s : string) : nat :=
  match s with
  | EmptyString => 0%nat
  | String c t => ((if (byte c =? 10)%N then 1 else 0) + count_nl t)%nat
  end.

(** One line: a body without newline byte, then one newline byte. *)
Definition one_line (out : string) : Prop :=
  exists body, out = body +:+ nl /\ count_nl body = 0%nat.

(** No byte of [s] is [b]. *)
Definition free_of (b : N) (s : string) : Prop := Forall (fun x => x <> b) (bytes s).

(** One step of the renaming: copy [src] to [dst] when [src] is there. *)
Definition copy_key (src dst : string) (data : logrus.Fields) : logrus.Fields :=
  match data !! src with
  | Some _ => <[dst := logrus.index data src]> data
  | None => data
  end.

(** The layout [Format] passes on: [time.Stamp] when none is configured. *)
Definition layout_of (f : TextFormatter) : string :=
  if String.eqb (TimestampFormat f) "" then time.Stamp else TimestampFormat f.

(** A byte outside ASCII. *)
Definition high (c : ascii) : Prop := (0x80 <= byte c)%N.

(** One turn of a loop over the runes of a string: an ASCII byte, an
    invalid byte decoded as [RuneError], or a rune outside ASCII with its
    encoding of two to four bytes. *)
Inductive chunk : N -> string -> Prop :=
| chunk_ascii c : (byte c < 0x80)%N -> chunk (byte c) (String c "")
| chunk_invalid c : high c -> chunk utf8.RuneError (String c "")
| chunk_multi r bs :
    (0x80 <= r)%N -> (2 <= String.length bs <= 4)%nat ->
    Forall (fun b => (0x80 <= b)%N) (bytes bs) -> chunk r bs.

(** What [appendKeyValue] writes for a value: a string, or the message of
    an error, bare or quoted; the default format of any other value. *)
Definition quote_or_raw (isPrintTable : N -> bool) (s : string) : string :=
  if needsQuoting s then s else strconv.Quote isPrintTable s.

Definition value_text (isPrintTable : N -> bool) (v : Value) : string :=
  match v with
  | VString s => quote_or_raw isPrintTable s
  | VError errmsg => quote_or_raw isPrintTable errmsg
  | _ => fmt.Fprint v
  end.

(** A pair [key=value] with the space that follows it. *)
Definition pair_text (isPrintTable : N -> bool) (key : string) (v : Value) : string :=
  key +:+ "=" +:+ value_text isPrintTable v +:+ " ".

(** A value that [appendKeyValue] writes without a newline byte: strings
    and errors are written bare or quoted, numbers and truth values have
    none; a value of another type is as its default format is. *)
Definition nl_free_value (v : Value) : Prop :=
  match v with
  | VOther x _ _ => count_nl x = 0%nat
  | _ => True
  end.

(** The parts of the coloured line: the stamp between brackets, the head
    up to the level label, and the fields. *)
Definition stamp_text (Time_Format : time.Time -> string -> string)
    (env : Env) (f : TextFormatter) (entry : logrus.Entry.t) (layout : string)
  : string :=
  if ShortTimestamp f then fmt.verb_04d (miniTS env)
  else Time_Format (logrus.Entry.Time entry) layout.

Definition colored_pair (A : ansi.lib) (lc : string) (data : logrus.Fields)
    (k : string) : string :=
  " " +:+ lc +:+ k +:+ ansi.Reset A +:+ "=" +:+ fmt.plus_v (logrus.index data k).

Definition colored_fields (A : ansi.lib) (lc : string) (data : logrus.Fields)
    (keys : list string) : string :=
  String.concat "" (map (colored_pair A lc data) keys).

(** ** Instances for the examples *)
Module Sample.

Definition esc : string := String (ascii_of_N 27) "".

(** The sequences of a terminal with the standard colours; the style
    parser puts the style between the brackets of a sequence. *)
Definition A : ansi.lib := {|
  ansi.Reset := esc +:+ "[0m";
  ansi.White := esc +:+ "[37m";
  ansi.Blue := esc +:+ "[34m";
  ansi.Yellow := esc +:+ "[33m";
  ansi.Red := esc +:+ "[31m";
  ansi.LightBlack := esc +:+ "[90m";
  ansi.ColorCode := fun style => esc +:+ "[" +:+ style +:+ "m"
|}.

(** A table that takes every rune above Latin-1 as printable. *)
Definition isPrintTable : N -> bool := fun _ => true.

(** The reference time of package [time] and a clock face frozen at it. *)
Definition t0 : time.Time :=
  {| time.unixNano := 1136239445000000000; time.zoneName := "MST";
     time.zoneOffset := -25200 |}.

Definition Time_Format : time.Time -> string -> string :=
  fun _ _ => "Jan  2 15:04:05".

(** A Unix process one and a half seconds after start, writing to a
    terminal, whose maps iterate in the order of [map_to_list]. *)
Definition env : Env := {|
  isTerminal := true;
  GOOS := "linux";
  since_baseTimestamp := 1500000000;
  range_keys := fun m => (map_to_list m).*1
|}.

(** The same process a second later. *)
Definition env_later : Env := {|
  isTerminal := true;
  GOOS := "linux";
  since_baseTimestamp := 2500000000;
  range_keys := fun m => (map_to_list m).*1
|}.

Definition palette : Colors.t := {|
  Colors.Debug := ""; Colors.Info := ""; Colors.Warn := "";
  Colors.Error := ""; Colors.Prefix := ""; Colors.Default := ""
|}.

(** [&TextFormatter{DisableColors: true}] *)
Definition plain : TextFormatter := {|
  ForceColors := false; DisableColors := true; DisableTimestamp := false;
  ShortTimestamp := false; TimestampFormat := ""; DisableSorting := false;
  Colors := None
|}.

(** [&TextFormatter{ForceColors: true, Colors: &Colors{}}] *)
Definition colored : TextFormatter := {|
  ForceColors := true; DisableColors := false; DisableTimestamp := false;
  ShortTimestamp := false; TimestampFormat := ""; DisableSorting := false;
  Colors := Some palette
|}.

(** [&TextFormatter{ForceColors: true}]: the palette pointer is nil. *)
Definition no_palette : TextFormatter := {|
  ForceColors := true; DisableColors := false; DisableTimestamp := false;
  ShortTimestamp := false; TimestampFormat := ""; DisableSorting := false;
  Colors := None
|}.

(** [&TextFormatter{ForceColors: true, ShortTimestamp: true, Colors: &Colors{}}] *)
Definition short : TextFormatter := {|
  ForceColors := true; DisableColors := false; DisableTimestamp := false;
  ShortTimestamp := true; TimestampFormat := ""; DisableSorting := false;
  Colors := Some palette
|}.

Definition entry (level : logrus.Level) (msg : string) (data : logrus.Fields)
  : logrus.Entry.t :=
  {| logrus.Entry.Data := data; logrus.Entry.Time := t0;
     logrus.Entry.Level := level; logrus.Entry.Message := msg |}.

Definition Format := Format isPrintTable Time_Format A.

End Sample.

(** The palette role that the [switch entry.Level] of [printColored]
    reads for a level. *)
Definition level_role (level : logrus.Level) (c : Colors.t) : string :=
  if (level =? logrus.DebugLevel)%N then Colors.Debug c
  else if (level =? logrus.InfoLevel)%N then Colors.Info c
  else if (level =? logrus.WarnLevel)%N then Colors.Warn c
  else if ((level =? logrus.ErrorLevel) || (level =? logrus.FatalLevel)
           || (level =? logrus.PanicLevel))%N then Colors.Error c
  else Colors.Default c.

(** A byte that is neither an ASCII control character nor DEL. *)
Definition visible_byte (b : N) : Prop := (32 <= b)%N /\ b <> 127%N.

(** The reserved keys and the keys their values are copied to. *)
Definition reserved : list string := ["time"; "msg"; "level"].

(** A text without ASCII control characters. *)
Definition clean (s : string) : Prop := Forall visible_byte (bytes s).

(** A value that [appendKeyValue] writes without control characters:
    strings and errors are written bare or quoted; a value of another
    type is as its default format is. *)
Definition clean_value (v : Value) : Prop :=
  match v with
  | VOther x _ _ => clean x
  | _ => True
  end.

(** Four decimal digits. *)
Definition four_digits (s : string) : bool :=
  (String.length s =? 4)%nat && forallb (between 48 57) (bytes s).

(** ** More instances for the examples *)
Module Sample2.

(** A terminal without colours: every sequence is empty. *)
Definition mono : ansi.lib := {|
  ansi.Reset := ""; ansi.White := ""; ansi.Blue := ""; ansi.Yellow := "";
  ansi.Red := ""; ansi.LightBlack := ""; ansi.ColorCode := fun _ => ""
|}.

(** Two palettes that differ in the Debug role only. *)
Definition green_info : Colors.t := {|
  Colors.Debug := ""; Colors.Info := "green"; Colors.Warn := "";
  Colors.Error := ""; Colors.Prefix := "cyan"; Colors.Default := ""
|}.

Definition green_info_red_debug : Colors.t := {|
  Colors.Debug := "red"; Colors.Info := "green"; Colors.Warn := "";
  Colors.Error := ""; Colors.Prefix := "cyan"; Colors.Default := ""
|}.

(** [&TextFormatter{ForceColors: true, DisableTimestamp: true, Colors: &Colors{}}] *)
Definition colored_no_time : TextFormatter := {|
  ForceColors := true; DisableColors := false; DisableTimestamp := true;
  ShortTimestamp := false; TimestampFormat := ""; DisableSorting := false;
  Colors := Some Sample.palette
|}.

(** Fields with a clash: the reserved key and its prefixed key. *)
Definition clash : logrus.Fields :=
  <["fields.time" := VString "old"]> {["time" := VString "X"]}.

(** A table that takes no rune above Latin-1 as printable. *)
Definition isPrintNone : N -> bool := fun _ => false.

End Sample2.

(** * Properties *)

(** ** Strings *)

Lemma append_cons (x : ascii) (a b : string) :
  String x a +:+ b = String x (a +:+ b).
Proof. reflexivity. Qed.

Lemma append_nil_l (b : string) : "" +:+ b = b.
Proof. reflexivity. Qed.

Lemma append_assoc (a b c : string) : (a +:+ b) +:+ c = a +:+ (b +:+ c).
Proof.
  induction a as [|x a IH]; [reflexivity|].
  now rewrite !append_cons, IH.
Qed.

Lemma append_nil_r (a : string) : a +:+ "" = a.
Proof.
  induction a as [|x a IH]; [reflexivity|]. now rewrite append_cons, IH.
Qed.

Lemma length_append (a b : string) :
  String.length (a +:+ b) = (String.length a + String.length b)%nat.
Proof.
  induction a as [|x a IH]; [reflexivity|].
  rewrite append_cons. simpl. now rewrite IH.
Qed.

Lemma count_nl_append (a b : string) :
  count_nl (a +:+ b) = (count_nl a + count_nl b)%nat.
Proof.
  induction a as [|x a IH]; [reflexivity|].
  rewrite append_cons. simpl. rewrite IH. lia.
Qed.

Lemma bytes_append (a b : string) : bytes (a +:+ b) = bytes a ++ bytes b.
Proof.
  unfold bytes. induction a as [|x a IH]; [reflexivity|].
  rewrite append_cons. simpl. now rewrite IH.
Qed.

(** ** The clash renaming *)

Section Clashes.

Implicit Types (data : logrus.Fields) (k : string) (v : Value).

Lemma index_lookup data k v : data !! k = Some v -> logrus.index data k = v.
Proof. unfold logrus.index. now intros ->. Qed.

Lemma prefixFieldClashes_steps data :
  prefixFieldClashes data =
  copy_key "level" "fields.level"
    (copy_key "msg" "fields.msg" (copy_key "time" "fields.time" data)).
Proof. reflexivity. Qed.

Lemma copy_key_other src dst data k :
  k <> dst -> copy_key src dst data !! k = data !! k.
Proof.
  intros Hk. unfold copy_key. destruct (data !! src); [|reflexivity].
  now rewrite lookup_insert_ne.
Qed.

Lemma copy_key_dst src dst data :
  copy_key src dst data !! dst =
  match data !! src with Some v => Some v | None => data !! dst end.
Proof.
  unfold copy_key. destruct (data !! src) as [v|] eqn:E; [|reflexivity].
  rewrite lookup_insert_eq. now rewrite (index_lookup _ _ _ E).
Qed.

Lemma copy_key_keeps src dst data k :
  is_Some (data !! k) -> is_Some (copy_key src dst data !! k).
Proof.
  intros Hk. destruct (decide (k = dst)) as [->|Hne].
  - rewrite copy_key_dst. destruct (data !! src); [eauto | assumption].
  - now rewrite copy_key_other.
Qed.

End Clashes.

(** C10. [prefixFieldClashes] deletes no entry; it leaves the value of
    every key other than ["fields.time"], ["fields.msg"] and
    ["fields.level"] as it was; and for each reserved key [r] among
    ["time"], ["msg"], ["level"], the key ["fields." + r] afterwards holds
    the value of [r] when [r] is present (whatever it held before) and is
    as before when [r] is absent. *)
Theorem prefixFieldClashes_frame (data : logrus.Fields) :
  (forall k, is_Some (data !! k) -> is_Some (prefixFieldClashes data !! k))
  /\ (forall k, k <> "fields.time" -> k <> "fields.msg" -> k <> "fields.level" ->
        prefixFieldClashes data !! k = data !! k)
  /\ (forall r, r ∈ ["time"; "msg"; "level"] ->
        prefixFieldClashes data !! ("fields." +:+ r) =
        match data !! r with
        | Some v => Some v
        | None => data !! ("fields." +:+ r)
        end).
Proof.
  rewrite prefixFieldClashes_steps. split; [|split].
  - intros k Hk. now do 3 apply copy_key_keeps.
  - intros k H1 H2 H3. now rewrite !copy_key_other.
  - intros r Hr.
    apply elem_of_cons in Hr as [->|Hr];
      [|apply elem_of_cons in Hr as [->|Hr];
        [|apply elem_of_cons in Hr as [->|Hr]; [|inversion Hr]]].
    + rewrite 2!copy_key_other by discriminate. apply copy_key_dst.
    + rewrite copy_key_other by discriminate. rewrite copy_key_dst.
      now rewrite !copy_key_other by discriminate.
    + rewrite copy_key_dst. now rewrite !copy_key_other by discriminate.
Qed.

(** ** The mode of rendering and the outcome of a call *)

Section Mode.

Variable isPrintTable : N -> bool.
Variable Time_Format : time.Time -> string -> string.
Variable A : ansi.lib.

Local Abbreviation format := (Format isPrintTable Time_Format A).
Local Abbreviation colored_line := (printColored Time_Format A).
Local Abbreviation plain_line := (printPlain isPrintTable Time_Format).

Lemma isColored_spec env f :
  isColored env f = true <->
  (ForceColors f = true \/ (isTerminal env = true /\ GOOS env <> "windows"))
  /\ DisableColors f = false.
Proof.
  unfold isColored.
  rewrite andb_true_iff, orb_true_iff, andb_true_iff, !negb_true_iff.
  rewrite String.eqb_neq. reflexivity.
Qed.

(** C5. [Format] renders in colour exactly when force-colors is set or the
    output is a terminal on an operating system other than Windows, and
    disable-colors is not set; otherwise it renders plain pairs. With
    disable-colors set the rendering is plain, whatever force-colors is. *)
Theorem Format_mode env f entry :
  let colored :=
    (ForceColors f = true \/ (isTerminal env = true /\ GOOS env <> "windows"))
    /\ DisableColors f = false in
  let keys := collect_keys env f (logrus.Entry.Data entry) in
  let entry' := (format env f entry).1 in
  let plain := Ok (plain_line f "" entry' keys (layout_of f) +:+ nl, None) in
  (colored ->
     (format env f entry).2 =
     match colored_line env f "" entry' keys (layout_of f) with
     | Ok b => Ok (b +:+ nl, None)
     | Panic reason => Panic reason
     end)
  /\ (~ colored -> (format env f entry).2 = plain)
  /\ (DisableColors f = true -> (format env f entry).2 = plain).
Proof.
  intros colored keys entry' plain.
  assert (Hc : isColored env f = true <-> colored) by apply isColored_spec.
  assert (Hp : ~ colored -> (format env f entry).2 = plain).
  { intros Hn. unfold Format. simpl.
    destruct (isColored env f) eqn:E; [|reflexivity].
    exfalso. apply Hn, Hc. reflexivity. }
  split; [|split].
  - intros H. apply Hc in H. unfold Format. simpl.
    rewrite H. reflexivity.
  - exact Hp.
  - intros Hd. apply Hp. intros [_ Hd']. congruence.
Qed.

(** Unless it renders in colour with a nil palette, [Format] returns bytes
    and a nil error. *)
Lemma Format_returns env f entry :
  isColored env f = false \/ Colors f <> None ->
  exists out, (format env f entry).2 = Ok (out, None).
Proof.
  unfold Format. simpl. intros H. destruct (isColored env f) eqn:E.
  - destruct H as [H|H]; [discriminate|].
    unfold printColored.
    destruct (Colors f) as [c|]; [|congruence].
    destruct (prefix_message A c _). eauto.
  - eauto.
Qed.

(** C2, the defect. When the rendering is coloured and the palette
    pointer is nil, [Format] panics on a nil dereference, whatever the
    entry: it returns neither bytes nor an error. *)
Theorem Format_nil_palette_panics env f entry :
  isColored env f = true -> Colors f = None ->
  (format env f entry).2 = Panic nil_dereference.
Proof.
  intros Hc Hn. unfold Format. cbn [snd]. rewrite Hc.
  unfold printColored. rewrite Hn. reflexivity.
Qed.

End Mode.

(** ** Decoding UTF-8 *)

Section Decoding.

Local Open Scope N_scope.

Lemma Pos_lor_ge_l p q : (p <= Pos.lor p q)%positive.
Proof.
  revert q. induction p; destruct q; cbv [Pos.lor]; fold Pos.lor;
    try specialize (IHp q); lia.
Qed.

Lemma N_lor_ge_l a b : a <= N.lor a b.
Proof. destruct a, b; cbv [N.lor]; try lia. apply Pos_lor_ge_l. Qed.

Lemma N_lor_ge_r a b : b <= N.lor a b.
Proof. rewrite N.lor_comm. apply N_lor_ge_l. Qed.

Lemma between_spec lo hi x : between lo hi x = true <-> lo <= x <= hi.
Proof. unfold between. rewrite andb_true_iff, !N.leb_le. reflexivity. Qed.

Lemma between_false lo hi x : between lo hi x = false <-> ~ (lo <= x <= hi).
Proof. rewrite <- between_spec. destruct (between lo hi x); intuition congruence. Qed.

(** The payload bits of a byte, shifted into place, bounded from below. *)
Lemma payload_lb (x lo hi : N) (bits shift : N) :
  lo <= x <= hi -> hi < 256 ->
  forall m, (m <= lo mod 2 ^ bits) -> lo / 2 ^ bits = hi / 2 ^ bits ->
  m * 2 ^ shift <= N.shiftl (N.land x (N.ones bits)) shift.
Proof.
  intros Hx Hhi m Hm Hq.
  rewrite N.land_ones, N.shiftl_mul_pow2.
  apply N.mul_le_mono_r.
  assert (H2 : 2 ^ bits <> 0) by (apply N.pow_nonzero; lia).
  assert (Hxq : x / 2 ^ bits = lo / 2 ^ bits).
  { apply N.le_antisymm.
    - rewrite Hq. apply N.Div0.div_le_mono. lia.
    - apply N.Div0.div_le_mono. lia. }
  pose proof (N.div_mod x (2 ^ bits) H2) as Ex.
  pose proof (N.div_mod lo (2 ^ bits) H2) as El.
  rewrite Hxq in Ex. nia.
Qed.

(** What [utf8.first] says about a leading byte. *)
Lemma first_spec s0 sz lo hi :
  utf8.first s0 = Some (sz, lo, hi) ->
  0x80 <= lo /\ hi <= 0xBF /\
  ((sz = 2%nat /\ 0xC2 <= s0 <= 0xDF)
   \/ (sz = 3%nat /\ ((s0 = 0xE0 /\ lo = 0xA0) \/ 0xE1 <= s0 <= 0xEF))
   \/ (sz = 4%nat /\ ((s0 = 0xF0 /\ lo = 0x90) \/ 0xF1 <= s0 <= 0xF4))).
Proof.
  unfold utf8.first.
  repeat match goal with
  | |- context [if between ?a ?b ?x then _ else _] =>
    let E := fresh "E" in
    destruct (between a b x) eqn:E;
      [apply between_spec in E | apply between_false in E]
  | |- context [if ?x =? ?a then _ else _] =>
    let E := fresh "E" in
    destruct (N.eqb_spec x a) as [E|E]
  end; intros [= <- <- <-]; (split; [lia | split; [lia|]]);
    try (left; split; [reflexivity | lia]);
    try (right; left; split; [reflexivity | first [left; split; [assumption | reflexivity] | right; lia]]);
    try (right; right; split; [reflexivity | first [left; split; [assumption | reflexivity] | right; lia]]).
Qed.

(** The shape of one decoding step: an ASCII byte is its own rune; any
    other byte starts either an invalid sequence, decoded as [RuneError]
    of width one, or a rune of at least [0x80] whose encoding continues
    with bytes of at least [0x80]. *)
Lemma decode_shape c t r w :
  utf8.DecodeRuneInString (String c t) = (r, w) ->
  (byte c < 0x80 /\ r = byte c /\ w = 1%nat)
  \/ (high c /\ r = utf8.RuneError /\ w = 1%nat)
  \/ (high c /\ 0x80 <= r /\
      exists c1 t1, t = String c1 t1 /\ high c1 /\
        (w = 2%nat \/ exists c2 t2, t1 = String c2 t2 /\ high c2 /\
           (w = 3%nat \/ exists c3 t3, t2 = String c3 t3 /\ high c3 /\ w = 4%nat))).
Proof.
  unfold utf8.DecodeRuneInString, utf8.RuneSelf, high.
  destruct (N.ltb_spec (byte c) 0x80) as [Hc|Hc].
  { intros [= <- <-]. left. auto. }
  destruct (utf8.first (byte c)) as [[[sz lo] hi]|] eqn:F.
  2: { intros [= <- <-]. right. left. auto. }
  apply first_spec in F as (Hlo & Hhi & F).
  destruct (Nat.ltb_spec (String.length (String c t)) sz) as [Hl|Hl].
  { intros [= <- <-]. right. left. auto. }
  destruct (between lo hi (byte_at (String c t) 1)) eqn:B1; cbv [negb].
  2: { intros [= <- <-]. right. left. auto. }
  apply between_spec in B1.
  destruct t as [|c1 t1].
  { exfalso. cbn [String.length] in Hl. destruct F as [[-> _]|[[-> _]|[-> _]]]; lia. }
  change (byte_at (String c (String c1 t1)) 1) with (byte c1) in *.
  destruct (Nat.leb_spec sz 2) as [H2|H2].
  { intros [= <- <-]. right. right. split; [assumption|]. split.
    - destruct F as [[_ F]|[[-> _]|[-> _]]]; try lia.
      etransitivity; [|apply N_lor_ge_l].
      change 0x1F with (N.ones 5).
      etransitivity; [|apply (payload_lb (byte c) 0xC2 0xDF 5 6 F ltac:(lia) 2); reflexivity].
      now vm_compute.
    - eexists _, _. split; [reflexivity|]. split; [lia|]. left. reflexivity. }
  unfold utf8.cont.
  destruct (between 0x80 0xBF (byte_at (String c (String c1 t1)) 2)) eqn:B2; cbv [negb].
  2: { intros [= <- <-]. right. left. auto. }
  apply between_spec in B2.
  destruct t1 as [|c2 t2].
  { exfalso. cbn [String.length] in Hl. destruct F as [[-> _]|[[-> _]|[-> _]]]; lia. }
  change (byte_at (String c (String c1 (String c2 t2))) 2) with (byte c2) in *.
  destruct (Nat.leb_spec sz 3) as [H3|H3].
  { intros [= <- <-]. right. right. split; [assumption|]. split.
    - destruct F as [[-> _]|[[_ F]|[-> _]]]; try lia.
      etransitivity; [|apply N_lor_ge_l].
      destruct F as [[F1 F2]|F].
      + etransitivity; [|apply N_lor_ge_r]. subst lo.
        change 0x3F with (N.ones 6).
        etransitivity;
          [|apply (payload_lb (byte c1) 0xA0 0xBF 6 6 ltac:(lia) ltac:(lia) 32); reflexivity].
        now vm_compute.
      + etransitivity; [|apply N_lor_ge_l].
        change 0x0F with (N.ones 4).
        etransitivity;
          [|apply (payload_lb (byte c) 0xE1 0xEF 4 12 F ltac:(lia) 1); reflexivity].
        now vm_compute.
    - eexists _, _. split; [reflexivity|]. split; [lia|]. right.
      eexists _, _. split; [reflexivity|]. split; [lia|]. left. reflexivity. }
  destruct (between 0x80 0xBF (byte_at (String c (String c1 (String c2 t2))) 3)) eqn:B3; cbv [negb].
  2: { intros [= <- <-]. right. left. auto. }
  apply between_spec in B3.
  destruct t2 as [|c3 t3].
  { exfalso. cbn [String.length] in Hl. destruct F as [[-> _]|[[-> _]|[-> _]]]; lia. }
  change (byte_at (String c (String c1 (String c2 (String c3 t3)))) 3) with (byte c3) in *.
  intros [= <- <-]. right. right. split; [assumption|]. split.
  - destruct F as [[-> _]|[[-> _]|[_ F]]]; try lia.
    do 2 (etransitivity; [|apply N_lor_ge_l]).
    destruct F as [[F1 F2]|F].
    + etransitivity; [|apply N_lor_ge_r]. subst lo.
      change 0x3F with (N.ones 6).
      etransitivity;
        [|apply (payload_lb (byte c1) 0x90 0xBF 6 12 ltac:(lia) ltac:(lia) 16); reflexivity].
      now vm_compute.
    + etransitivity; [|apply N_lor_ge_l].
      change 0x07 with (N.ones 3).
      etransitivity;
        [|apply (payload_lb (byte c) 0xF1 0xF4 3 18 F ltac:(lia) 1); reflexivity].
      now vm_compute.
  - eexists _, _. split; [reflexivity|]. split; [lia|]. right.
    eexists _, _. split; [reflexivity|]. split; [lia|]. right.
    eexists _, _. split; [reflexivity|]. split; [lia|]. reflexivity.
Qed.

Lemma substring_0_0 (s : string) : String.substring 0 0 s = "".
Proof. now destruct s. Qed.

(** The runes of a string split it into chunks. *)
Lemma range_ind (P : string -> list (N * string) -> Prop) :
  P "" [] ->
  (forall r bs rest, chunk r bs -> P rest (utf8.range rest) ->
     P (bs +:+ rest) ((r, bs) :: utf8.range rest)) ->
  forall s, P s (utf8.range s).
Proof.
  intros Hnil Hcons s.
  remember (String.length s) as n eqn:Hn. revert s Hn.
  induction n as [n IH] using lt_wf_ind. intros [|c t] Hn; [exact Hnil|].
  cbn [String.length] in Hn.
  destruct (utf8.DecodeRuneInString (String c t)) as [r w] eqn:E.
  unfold utf8.range at 1. cbn [utf8.range_go]. rewrite E.
  apply decode_shape in E
    as [(Hc & -> & ->)|[(Hc & -> & ->)|(Hc & Hr & c1 & t1 & -> & H1 & E)]].
  - cbn [String.substring]; rewrite substring_0_0; refine (Hcons _ (String c "") t _ _); [now constructor|].
    apply (IH (String.length t)); [lia | reflexivity].
  - cbn [String.substring]; rewrite substring_0_0; refine (Hcons _ (String c "") t _ _); [now constructor|].
    apply (IH (String.length t)); [lia | reflexivity].
  - cbn [String.length] in Hn.
    destruct E as [->|(c2 & t2 & -> & H2 & E)].
    { cbn [String.substring]; rewrite substring_0_0; refine (Hcons _ (String c (String c1 "")) t1 _ _).
      - apply chunk_multi; [assumption | cbn; lia |].
        repeat constructor; assumption.
      - apply (IH (String.length t1)); [lia | reflexivity]. }
    cbn [String.length] in Hn.
    destruct E as [->|(c3 & t3 & -> & H3 & ->)].
    { cbn [String.substring]; rewrite substring_0_0; refine (Hcons _ (String c (String c1 (String c2 ""))) t2 _ _).
      - apply chunk_multi; [assumption | cbn; lia |].
        repeat constructor; assumption.
      - apply (IH (String.length t2)); [lia | reflexivity]. }
    cbn [String.length] in Hn.
    cbn [String.substring]; rewrite substring_0_0; refine (Hcons _ (String c (String c1 (String c2 (String c3 "")))) t3 _ _).
    + apply chunk_multi; [assumption | cbn; lia |].
      repeat constructor; assumption.
    + apply (IH (String.length t3)); [lia | reflexivity].
Qed.

End Decoding.

(** ** Bare text and quoted text *)

Section Quoting.

Local Open Scope N_scope.

Variable isPrintTable : N -> bool.

Local Abbreviation Quote := (strconv.Quote isPrintTable).
Local Abbreviation quote_rune := (strconv.quote_rune isPrintTable).

Lemma bare_rune_spec b : bare_rune b = true <-> bare_byte b.
Proof.
  unfold bare_rune, bare_byte.
  rewrite !orb_true_iff, !between_spec, !N.eqb_eq. tauto.
Qed.

Lemma all_bare_append a b : all_bare (a +:+ b) <-> all_bare a /\ all_bare b.
Proof. unfold all_bare. rewrite bytes_append. apply Forall_app. Qed.

Lemma bytes_cons c s : bytes (String c s) = byte c :: bytes s.
Proof. reflexivity. Qed.

Lemma all_bare_cons c s : all_bare (String c s) <-> bare_byte (byte c) /\ all_bare s.
Proof. unfold all_bare. rewrite bytes_cons. apply Forall_cons. Qed.

Lemma all_bare_nil : all_bare "".
Proof. constructor. Qed.

(** [needsQuoting] holds exactly of the texts made of bare characters. *)
Lemma needsQuoting_spec text : needsQuoting text = true <-> all_bare text.
Proof.
  unfold needsQuoting. apply range_ind with (s := text).
  - split; [intros _; apply all_bare_nil | reflexivity].
  - intros r bs rest Hch IH. rewrite all_bare_append. cbn [needsQuoting_loop].
    destruct Hch as [c Hc|c Hc|r bs Hr Hl Hb].
    + rewrite all_bare_cons, <- bare_rune_spec.
      destruct (bare_rune (byte c)); cbn [negb].
      * rewrite IH. pose proof all_bare_nil. tauto.
      * split; [discriminate|]. intros [[H _] _]. discriminate.
    + rewrite all_bare_cons. split; [discriminate|]. intros [[Hb _] _].
      unfold high in Hc. unfold bare_byte in Hb. lia.
    + assert (B : bare_rune r = false).
      { destruct (bare_rune r) eqn:B; [|reflexivity].
        apply bare_rune_spec in B. unfold bare_byte in B. lia. }
      rewrite B. cbn [negb]. split; [discriminate|]. intros [H _].
      destruct bs as [|c bs]; [cbn in Hl; lia|].
      apply all_bare_cons in H as [Hc _]. rewrite bytes_cons in Hb.
      inversion Hb as [|? ? Hc' _]; subst.
      unfold bare_byte in Hc. lia.
Qed.

Lemma needsQuoting_false text : needsQuoting text = false <-> ~ all_bare text.
Proof.
  rewrite <- needsQuoting_spec. destruct (needsQuoting text); intuition congruence.
Qed.

Lemma concat_cons (x : string) (l : list string) :
  String.concat "" (x :: l) = x +:+ String.concat "" l.
Proof.
  destruct l as [|y l]; cbn [String.concat]; [now rewrite append_nil_r | reflexivity].
Qed.

Lemma length_hex n r : String.length (strconv.hex n r) = n.
Proof.
  induction n as [|n IH]; [reflexivity|].
  cbn [strconv.hex]. rewrite length_append, IH. reflexivity.
Qed.

Lemma count_nl_lowerhex d : d <= 15 -> count_nl (strconv.lowerhex d) = 0%nat.
Proof.
  intros Hd. unfold strconv.lowerhex. cbn [count_nl]. unfold byte.
  destruct (N.ltb_spec d 10); rewrite N_ascii_embedding by lia;
    match goal with |- context [?x =? 10] => destruct (N.eqb_spec x 10) end;
    lia.
Qed.

Lemma count_nl_hex n r : count_nl (strconv.hex n r) = 0%nat.
Proof.
  induction n as [|n IH]; [reflexivity|].
  cbn [strconv.hex]. rewrite count_nl_append, IH, count_nl_lowerhex; [reflexivity|].
  change 0xF with (N.ones 4). rewrite N.land_ones.
  change (2 ^ 4) with 16. change (N.ones 4) with 15.
  match goal with
  | |- ?x mod 16 <= 15 => pose proof (N.mod_upper_bound x 16 ltac:(lia)); lia
  end.
Qed.

Lemma IsPrint_not_nl : strconv.IsPrint isPrintTable 10 = false.
Proof. reflexivity. Qed.

Lemma count_nl_high bs :
  Forall (fun b => 0x80 <= b) (bytes bs) -> count_nl bs = 0%nat.
Proof.
  induction bs as [|c bs IH]; [reflexivity|].
  rewrite bytes_cons. intros H. inversion H as [|? ? Hc Hbs]; subst. cbn [count_nl].
  rewrite (IH Hbs). destruct (N.eqb_spec (byte c) 10); [lia | reflexivity].
Qed.

(** An escaped rune holds no newline byte when the bytes kept for a
    printable rune hold none. *)
Lemma count_nl_appendEscapedRune r bs :
  (strconv.IsPrint isPrintTable r = true -> count_nl bs = 0%nat) ->
  count_nl (strconv.appendEscapedRune isPrintTable r bs) = 0%nat.
Proof.
  intros Hbs. unfold strconv.appendEscapedRune.
  destruct (N.eqb_spec r 34) as [->|_]; [reflexivity|].
  destruct (N.eqb_spec r 92) as [->|_]; [reflexivity|]. cbn [orb].
  destruct (strconv.IsPrint isPrintTable r); [now apply Hbs|].
  repeat match goal with
  | |- context [if ?x =? ?k then _ else _] =>
    destruct (N.eqb_spec x k) as [->|_]; [reflexivity|]
  end.
  destruct ((r <? 32) || (r =? 0x7F)).
  - rewrite !count_nl_append, count_nl_hex. reflexivity.
  - destruct (_ <? 0x10000); rewrite !count_nl_append, count_nl_hex; reflexivity.
Qed.

Lemma count_nl_quote_rune r bs :
  chunk r bs -> count_nl (quote_rune (r, bs)) = 0%nat.
Proof.
  intros Hch. unfold strconv.quote_rune.
  destruct ((String.length bs =? 1)%nat && (r =? utf8.RuneError)).
  { rewrite !count_nl_append, count_nl_hex. reflexivity. }
  apply count_nl_appendEscapedRune. intros HP.
  destruct Hch as [c Hc|c Hc|r bs Hr Hl Hb].
  - cbn [count_nl]. destruct (N.eqb_spec (byte c) 10) as [E|_]; [|reflexivity].
    rewrite E, IsPrint_not_nl in HP. discriminate.
  - apply count_nl_high. rewrite bytes_cons. repeat constructor. exact Hc.
  - now apply count_nl_high.
Qed.

(** A quoted text holds no newline byte. *)
Lemma count_nl_Quote s : count_nl (Quote s) = 0%nat.
Proof.
  unfold strconv.Quote. rewrite !count_nl_append.
  change (count_nl dquote) with 0%nat.
  enough (count_nl (String.concat "" (map quote_rune (utf8.range s))) = 0%nat) as ->
    by reflexivity.
  apply range_ind with (s := s); [reflexivity|].
  intros r bs rest Hch IH. cbn [map]. rewrite concat_cons, count_nl_append, IH.
  rewrite (count_nl_quote_rune _ _ Hch). reflexivity.
Qed.

Lemma length_appendEscapedRune r bs :
  (String.length bs <= 4)%nat -> (r < 0x80 -> (String.length bs <= 2)%nat) ->
  (String.length bs <= String.length (strconv.appendEscapedRune isPrintTable r bs))%nat.
Proof.
  intros H4 H2. unfold strconv.appendEscapedRune.
  assert (Hs : r < 0x80 -> (String.length bs <= 2)%nat) by exact H2.
  destruct (N.eqb_spec r 34) as [->|_]; [apply Hs; lia|].
  destruct (N.eqb_spec r 92) as [->|_]; [apply Hs; lia|]. cbn [orb].
  destruct (strconv.IsPrint isPrintTable r); [lia|].
  repeat match goal with
  | |- context [if ?x =? ?k then _ else _] =>
    destruct (N.eqb_spec x k) as [->|_]; [apply Hs; lia|]
  end.
  destruct ((r <? 32) || (r =? 0x7F)).
  - rewrite !length_append, length_hex. cbn. lia.
  - destruct (_ <? 0x10000); rewrite !length_append, length_hex; cbn; lia.
Qed.

Lemma length_quote_rune r bs :
  chunk r bs -> (String.length bs <= String.length (quote_rune (r, bs)))%nat.
Proof.
  intros Hch. unfold strconv.quote_rune.
  assert (H4 : (String.length bs <= 4)%nat /\ (r < 0x80 -> (String.length bs <= 2)%nat)).
  { destruct Hch as [c Hc|c Hc|r bs Hr Hl Hb]; cbn [String.length]; split; lia. }
  destruct ((String.length bs =? 1)%nat && (r =? utf8.RuneError)).
  - rewrite !length_append, length_hex. cbn. lia.
  - now apply length_appendEscapedRune.
Qed.

(** Quoting adds at least the two quote characters. *)
Lemma length_Quote s : (String.length s + 2 <= String.length (Quote s))%nat.
Proof.
  unfold strconv.Quote. rewrite !length_append. change (String.length dquote) with 1%nat.
  enough (String.length s <=
          String.length (String.concat "" (map quote_rune (utf8.range s))))%nat by lia.
  apply range_ind with (s := s); [reflexivity|].
  intros r bs rest Hch IH. cbn [map]. rewrite concat_cons, !length_append.
  pose proof (length_quote_rune _ _ Hch). lia.
Qed.

Lemma Quote_neq s : Quote s <> s.
Proof.
  intros H. pose proof (length_Quote s) as Hl. rewrite H in Hl. lia.
Qed.

Lemma appendKeyValue_eq b key v :
  appendKeyValue isPrintTable b key v = b +:+ pair_text isPrintTable key v.
Proof.
  unfold appendKeyValue, pair_text, value_text, quote_or_raw.
  destruct v; try destruct (needsQuoting _); now rewrite !append_assoc.
Qed.


End Quoting.

(** ** The keys that are rendered *)

Section Keys.

Implicit Types (env : Env) (f : TextFormatter) (data : logrus.Fields).

Lemma elem_of_map_keys data k :
  k ∈ (map_to_list data).*1 <-> is_Some (data !! k).
Proof.
  rewrite list_elem_of_fmap. split.
  - intros [[k' v] [-> H]]. apply elem_of_map_to_list in H. eauto.
  - intros [v H]. exists (k, v). split; [reflexivity|].
    now apply elem_of_map_to_list.
Qed.

Lemma collect_keys_Permutation env f data :
  range_ok env ->
  collect_keys env f data ≡ₚ filter (λ k, k ≠ "prefix") (map_to_list data).*1.
Proof.
  intros Hr. unfold collect_keys, sort.Strings.
  destruct (DisableSorting f); [|rewrite merge_sort_Permutation];
    now rewrite (Hr data).
Qed.

Lemma collect_keys_elem env f data k :
  range_ok env ->
  k ∈ collect_keys env f data <-> k <> "prefix" /\ is_Some (data !! k).
Proof.
  intros Hr. rewrite (collect_keys_Permutation env f data Hr).
  rewrite list_elem_of_filter, elem_of_map_keys. reflexivity.
Qed.

Lemma collect_keys_NoDup env f data :
  range_ok env -> NoDup (collect_keys env f data).
Proof.
  intros Hr. rewrite (collect_keys_Permutation env f data Hr).
  apply NoDup_filter, NoDup_fst_map_to_list.
Qed.

Lemma collect_keys_sorted env f data :
  DisableSorting f = false -> StronglySorted String.le (collect_keys env f data).
Proof.
  intros Hs. unfold collect_keys, sort.Strings. rewrite Hs.
  apply StronglySorted_merge_sort; apply _.
Qed.

(** The keys are collected before the clash renaming: a key
    ["fields." + r] is rendered only if the fields held it already. *)
Lemma clash_copy_not_collected env f data r :
  range_ok env -> data !! ("fields." +:+ r) = None ->
  "fields." +:+ r ∉ collect_keys env f data.
Proof.
  intros Hr Hn H. apply collect_keys_elem in H as [_ [v Hv]]; [|assumption].
  rewrite Hn in Hv. discriminate.
Qed.

(** With sorting, the keys do not depend on the order of iteration. *)
Lemma collect_keys_sorted_eq env1 env2 f data :
  range_ok env1 -> range_ok env2 -> DisableSorting f = false ->
  collect_keys env1 f data = collect_keys env2 f data.
Proof.
  intros H1 H2 Hs. apply (StronglySorted_unique String.le).
  - now apply collect_keys_sorted.
  - now apply collect_keys_sorted.
  - now rewrite !collect_keys_Permutation.
Qed.

End Keys.

(** ** The plain rendering *)

Section Plain.

Variable isPrintTable : N -> bool.
Variable Time_Format : time.Time -> string -> string.
Variable A : ansi.lib.

Local Abbreviation format := (Format isPrintTable Time_Format A).
Local Abbreviation pair := (pair_text isPrintTable).

Lemma fold_appendKeyValue (data : logrus.Fields) keys b :
  fold_left (fun b key => appendKeyValue isPrintTable b key (logrus.index data key)) keys b
  = b +:+ String.concat "" (map (fun k => pair k (logrus.index data k)) keys).
Proof.
  revert b. induction keys as [|k keys IH]; intros b.
  - cbn. now rewrite append_nil_r.
  - cbn [fold_left map]. rewrite IH, concat_cons, appendKeyValue_eq.
    now rewrite append_assoc.
Qed.

(** The line of the plain rendering, pair by pair. *)
Lemma printPlain_eq f entry keys layout :
  printPlain isPrintTable Time_Format f "" entry keys layout =
  (if DisableTimestamp f then ""
   else pair "time" (VString (Time_Format (logrus.Entry.Time entry) layout)))
  +:+ pair "level" (VString (logrus.Level_String (logrus.Entry.Level entry)))
  +:+ (if String.eqb (logrus.Entry.Message entry) "" then ""
       else pair "msg" (VString (logrus.Entry.Message entry)))
  +:+ String.concat ""
        (map (fun k => pair k (logrus.index (logrus.Entry.Data entry) k)) keys).
Proof.
  unfold printPlain. rewrite fold_appendKeyValue.
  destruct (DisableTimestamp f), (String.eqb (logrus.Entry.Message entry) "");
    cbn [negb]; rewrite ?appendKeyValue_eq, ?append_assoc, ?append_nil_l;
    reflexivity.
Qed.

(** C6. In plain mode the line is made of these pairs in this order: the
    time unless timestamps are disabled, the level, the message unless it
    is empty, then one pair for each key of the fields other than
    ["prefix"], each key once, in ascending byte-wise order when sorting is
    enabled. Each pair is [key=value] followed by one space, the last pair
    included, and the newline ends the line. *)
Theorem Format_plain_pairs env f entry :
  range_ok env -> isColored env f = false ->
  exists keys,
    (forall k, k ∈ keys <->
       k <> "prefix" /\ is_Some (logrus.Entry.Data entry !! k))
    /\ NoDup keys
    /\ (DisableSorting f = false -> StronglySorted String.le keys)
    /\ (format env f entry).2 =
       Ok ((if DisableTimestamp f then ""
            else pair "time"
                   (VString (Time_Format (logrus.Entry.Time entry) (layout_of f))))
           +:+ pair "level" (VString (logrus.Level_String (logrus.Entry.Level entry)))
           +:+ (if String.eqb (logrus.Entry.Message entry) "" then ""
                else pair "msg" (VString (logrus.Entry.Message entry)))
           +:+ String.concat ""
                 (map (fun k => pair k (logrus.index
                                          (prefixFieldClashes (logrus.Entry.Data entry)) k))
                      keys)
           +:+ nl, None).
Proof.
  intros Hr Hc. exists (collect_keys env f (logrus.Entry.Data entry)).
  split; [|split; [|split]].
  - intros k. now apply collect_keys_elem.
  - now apply collect_keys_NoDup.
  - apply collect_keys_sorted.
  - unfold Format. cbn [snd]. rewrite Hc. fold (layout_of f).
    rewrite printPlain_eq. cbn [logrus.Entry.Data logrus.Entry.Time
      logrus.Entry.Level logrus.Entry.Message].
    now rewrite !append_assoc.
Qed.

End Plain.

(** ** Newline bytes of the plain line *)

Section PlainLine.

Variable isPrintTable : N -> bool.
Variable Time_Format : time.Time -> string -> string.
Variable A : ansi.lib.

Local Abbreviation format := (Format isPrintTable Time_Format A).
Local Abbreviation pair := (pair_text isPrintTable).

Lemma count_nl_all_bare s : all_bare s -> count_nl s = 0%nat.
Proof.
  induction s as [|c s IH]; [reflexivity|].
  rewrite all_bare_cons. intros [Hc Hs]. cbn [count_nl]. rewrite (IH Hs).
  unfold bare_byte in Hc. destruct (N.eqb_spec (byte c) 10); [lia | reflexivity].
Qed.

Lemma count_nl_quote_or_raw s : count_nl (quote_or_raw isPrintTable s) = 0%nat.
Proof.
  unfold quote_or_raw. destruct (needsQuoting s) eqn:E.
  - now apply count_nl_all_bare, needsQuoting_spec.
  - apply count_nl_Quote.
Qed.

Lemma count_nl_uint d : count_nl (NilEmpty.string_of_uint d) = 0%nat.
Proof.
  induction d; cbn [NilEmpty.string_of_uint count_nl]; try rewrite IHd;
    reflexivity.
Qed.

Lemma count_nl_NilZero d : count_nl (NilZero.string_of_uint d) = 0%nat.
Proof. destruct d; first [reflexivity | apply count_nl_uint]. Qed.

Lemma count_nl_Itoa z : count_nl (strconv.Itoa z) = 0%nat.
Proof.
  unfold strconv.Itoa, NilZero.string_of_int.
  destruct (Z.to_int z) as [d|d]; [apply count_nl_NilZero|].
  cbn [count_nl]. now rewrite count_nl_NilZero.
Qed.

Lemma count_nl_value_text v :
  nl_free_value v -> count_nl (value_text isPrintTable v) = 0%nat.
Proof.
  destruct v as [s|s|n|[]| |x y z]; cbn [nl_free_value value_text fmt.Fprint];
    intros H; try reflexivity;
    [apply count_nl_quote_or_raw | apply count_nl_quote_or_raw
     | apply count_nl_Itoa | exact H].
Qed.

Lemma count_nl_pair k v :
  count_nl k = 0%nat -> nl_free_value v -> count_nl (pair k v) = 0%nat.
Proof.
  intros Hk Hv. unfold pair_text.
  rewrite !count_nl_append, Hk, (count_nl_value_text _ Hv). reflexivity.
Qed.

Lemma count_nl_concat (l : list string) :
  Forall (fun s => count_nl s = 0%nat) l -> count_nl (String.concat "" l) = 0%nat.
Proof.
  induction 1 as [|s l Hs _ IH]; [reflexivity|].
  now rewrite concat_cons, count_nl_append, Hs, IH.
Qed.

Lemma copy_key_lookup_inv src dst (data : logrus.Fields) k v :
  copy_key src dst data !! k = Some v ->
  data !! k = Some v \/ data !! src = Some v.
Proof.
  destruct (decide (k = dst)) as [->|Hne].
  - rewrite copy_key_dst. destruct (data !! src); auto.
  - rewrite copy_key_other by assumption. auto.
Qed.

(** Every value of the map after the renaming is a value the map had,
    under the same key or under a reserved key. *)
Lemma prefixFieldClashes_lookup_inv (data : logrus.Fields) k v :
  prefixFieldClashes data !! k = Some v ->
  data !! k = Some v \/ data !! "time" = Some v
  \/ data !! "msg" = Some v \/ data !! "level" = Some v.
Proof.
  rewrite prefixFieldClashes_steps. intros H.
  apply copy_key_lookup_inv in H as [H|H].
  - apply copy_key_lookup_inv in H as [H|H].
    + apply copy_key_lookup_inv in H as [H|H]; auto.
    + rewrite copy_key_other in H by discriminate. auto.
  - rewrite !copy_key_other in H by discriminate. auto.
Qed.

Lemma count_nl_nl_suffix body : count_nl (body +:+ nl) = S (count_nl body).
Proof. rewrite count_nl_append. change (count_nl nl) with 1%nat. lia. Qed.

Section Fields.

Variable data : logrus.Fields.
Hypothesis nl_free :
  forall k v, data !! k = Some v -> k <> "prefix" ->
    count_nl k = 0%nat /\ nl_free_value v.

Lemma nl_free_index k :
  k <> "prefix" -> nl_free_value (logrus.index (prefixFieldClashes data) k).
Proof.
  intros Hp. unfold logrus.index.
  destruct (prefixFieldClashes data !! k) as [w|] eqn:Ew; [|exact I].
  cbn [default].
  apply prefixFieldClashes_lookup_inv in Ew as [Ew|[Ew|[Ew|Ew]]];
    refine (proj2 (nl_free _ w Ew _)); [assumption | discriminate..].
Qed.

Lemma count_nl_fields keys :
  (forall k, k ∈ keys -> k <> "prefix" /\ is_Some (data !! k)) ->
  count_nl (String.concat ""
    (map (fun k => pair k (logrus.index (prefixFieldClashes data) k)) keys)) = 0%nat.
Proof.
  intros Hk. apply count_nl_concat, List.Forall_forall. intros s Hs.
  apply in_map_iff in Hs as (k & <- & Hin).
  apply list_elem_of_In, Hk in Hin as [Hp [v Hv]].
  apply count_nl_pair; [exact (proj1 (nl_free k v Hv Hp)) | now apply nl_free_index].
Qed.

End Fields.


(** C1, at the failing input. The fields hold ["time"] with the value [X]
    and the rendering is plain. The value is copied to ["fields.time"] in
    the map, but the keys were collected before the copy: the line has the
    pair of the timestamp and then [time=X], and no pair for
    ["fields.time"]. With all three reserved keys in the fields the line
    repeats each of them and has none of the prefixed keys. *)
Theorem Format_time_clash_not_renamed :
  let entry := Sample.entry logrus.InfoLevel "" {["time" := VString "X"]} in
  let entry3 :=
    Sample.entry logrus.InfoLevel "hello"
      (<["level" := VString "L"]> (<["msg" := VString "M"]> {["time" := VString "X"]})) in
  (format Sample.env Sample.plain entry).2 =
    Ok (pair "time" (VString (Time_Format Sample.t0 time.Stamp))
        +:+ "level=info time=X " +:+ nl, None)
  /\ logrus.Entry.Data (format Sample.env Sample.plain entry).1 =
     <["fields.time" := VString "X"]> {["time" := VString "X"]}
  /\ collect_keys Sample.env Sample.plain (logrus.Entry.Data entry) = ["time"]
  /\ (format Sample.env Sample.plain entry3).2 =
     Ok (pair "time" (VString (Time_Format Sample.t0 time.Stamp))
         +:+ "level=info msg=hello level=L msg=M time=X " +:+ nl, None).
Proof.
  intros entry entry3. split; [|split; [|split]]; [|reflexivity|reflexivity|].
  - unfold Format. cbn [snd].
    change (isColored Sample.env Sample.plain) with false. cbv iota.
    rewrite printPlain_eq.
    change (collect_keys Sample.env Sample.plain (logrus.Entry.Data entry))
      with ["time"].
    cbn [DisableTimestamp Sample.plain logrus.Entry.Time Sample.entry entry].
    now rewrite !append_assoc.
  - unfold Format. cbn [snd].
    change (isColored Sample.env Sample.plain) with false. cbv iota.
    rewrite printPlain_eq.
    change (collect_keys Sample.env Sample.plain (logrus.Entry.Data entry3))
      with ["level"; "msg"; "time"].
    cbn [DisableTimestamp Sample.plain logrus.Entry.Time Sample.entry entry3].
    now rewrite !append_assoc.
Qed.

(** C8, as amended. Two calls on the same entry and configuration in
    processes that agree on [isTerminal] and [GOOS] give the same result
    when the keys come in the same order, which sorting ensures, and, for
    the coloured rendering with short timestamps, when the same number of
    whole seconds has elapsed since start. *)
Theorem Format_deterministic env1 env2 f entry :
  isTerminal env1 = isTerminal env2 -> GOOS env1 = GOOS env2 ->
  range_ok env1 -> range_ok env2 ->
  (DisableSorting f = true ->
     range_keys env1 (logrus.Entry.Data entry) = range_keys env2 (logrus.Entry.Data entry)) ->
  (isColored env1 f = true -> ShortTimestamp f = true -> miniTS env1 = miniTS env2) ->
  format env1 f entry = format env2 f entry.
Proof.
  intros Ht Hg H1 H2 Hs Hm.
  assert (Hk : collect_keys env1 f (logrus.Entry.Data entry)
               = collect_keys env2 f (logrus.Entry.Data entry)).
  { destruct (DisableSorting f) eqn:E.
    - unfold collect_keys. now rewrite E, Hs.
    - now apply collect_keys_sorted_eq. }
  assert (Hc : isColored env1 f = isColored env2 f).
  { unfold isColored. now rewrite Ht, Hg. }
  unfold Format. rewrite <- Hk, <- Hc.
  destruct (isColored env1 f) eqn:E; [|reflexivity].
  unfold printColored. destruct (Colors f) as [c|]; [|reflexivity].
  destruct (ShortTimestamp f); [|reflexivity].
  now rewrite Hm.
Qed.

End PlainLine.

Lemma Sample_range_ok : range_ok Sample.env.
Proof. intros m. reflexivity. Qed.

Lemma Sample_later_range_ok : range_ok Sample.env_later.
Proof. intros m. reflexivity. Qed.

(** C6, witness. The plain line of an entry with a message and three
    fields, one of them the prefix. *)
Lemma Format_plain_pairs_witness :
  range_ok Sample.env /\ isColored Sample.env Sample.plain = false /\
  exists keys,
    (Sample.Format Sample.env Sample.plain
       (Sample.entry logrus.InfoLevel "hello"
          (<["b" := VInt 3]> (<["prefix" := VString "p"]> {["a" := VString "x y"]})))).2
    = Ok ("time=" +:+ dquote +:+ "Jan  2 15:04:05" +:+ dquote
          +:+ " level=info msg=hello "
          +:+ String.concat ""
                (map (fun k => pair_text Sample.isPrintTable k
                   (logrus.index (prefixFieldClashes
                      (<["b" := VInt 3]> (<["prefix" := VString "p"]> {["a" := VString "x y"]}))) k))
                   keys)
          +:+ nl, None)
    /\ StronglySorted String.le keys /\ NoDup keys.
Proof.
  split; [exact Sample_range_ok|]. split; [reflexivity|].
  destruct (Format_plain_pairs Sample.isPrintTable Sample.Time_Format Sample.A
              Sample.env Sample.plain
              (Sample.entry logrus.InfoLevel "hello"
                 (<["b" := VInt 3]> (<["prefix" := VString "p"]> {["a" := VString "x y"]})))
              Sample_range_ok eq_refl) as (keys & Hk & Hn & Hs & E).
  exists keys. split; [exact E|]. split; [now apply Hs | exact Hn].
Defined.



(** C8, counterexample. With short timestamps the same entry and
    configuration give different bytes one second later. *)
Lemma Format_short_timestamp_counterexample :
  isTerminal Sample.env = isTerminal Sample.env_later
  /\ GOOS Sample.env = GOOS Sample.env_later
  /\ (Sample.Format Sample.env Sample.short (Sample.entry logrus.InfoLevel "m" ∅)).2
     <> (Sample.Format Sample.env_later Sample.short (Sample.entry logrus.InfoLevel "m" ∅)).2.
Proof. split; [reflexivity|]. split; [reflexivity|]. vm_compute. discriminate. Qed.

(** C8, witness. Two calls a second apart that render the wall-clock
    time. *)
Lemma Format_deterministic_witness :
  Sample.Format Sample.env Sample.colored
    (Sample.entry logrus.InfoLevel "m" {["k" := VInt 1]})
  = Sample.Format Sample.env_later Sample.colored
    (Sample.entry logrus.InfoLevel "m" {["k" := VInt 1]}).
Proof.
  apply (Format_deterministic Sample.isPrintTable Sample.Time_Format Sample.A
           Sample.env Sample.env_later Sample.colored).
  - reflexivity.
  - reflexivity.
  - exact Sample_range_ok.
  - exact Sample_later_range_ok.
  - discriminate.
  - discriminate.
Defined.

(** C2, witness. With force-colors set and no palette the call panics. *)
Lemma Format_nil_palette_panics_witness :
  (Sample.Format Sample.env Sample.no_palette
     (Sample.entry logrus.InfoLevel "hi" ∅)).2 = Panic nil_dereference.
Proof.
  apply (Format_nil_palette_panics Sample.isPrintTable Sample.Time_Format Sample.A
           Sample.env Sample.no_palette); reflexivity.
Defined.

(** ** Substrings and the bracket pattern *)

Section Brackets.

Local Open Scope N_scope.

Lemma substring_prefix (a b : string) :
  String.substring 0 (String.length a) (a +:+ b) = a.
Proof.
  induction a as [|x a IH]; [apply substring_0_0|].
  rewrite append_cons. cbn [String.length String.substring]. now rewrite IH.
Qed.

Lemma substring_all (a : string) : String.substring 0 (String.length a) a = a.
Proof. rewrite <- (append_nil_r a) at 2. apply substring_prefix. Qed.

Lemma substring_skip (a b : string) n :
  String.substring (String.length a) n (a +:+ b) = String.substring 0 n b.
Proof.
  induction a as [|x a IH]; [reflexivity|].
  rewrite append_cons. cbn [String.length String.substring]. exact IH.
Qed.

Lemma append_one (c : ascii) (s : string) : String c "" +:+ s = String c s.
Proof. reflexivity. Qed.

Lemma free_of_cons b c s : free_of b (String c s) <-> byte c <> b /\ free_of b s.
Proof.
  unfold free_of. rewrite bytes_cons. apply (Forall_cons (fun x => x <> b)).
Qed.

Lemma free_of_nil b : free_of b "".
Proof. constructor. Qed.

Lemma byte_eq c n : byte c = n -> c = ascii_of_N n.
Proof. intros <-. unfold byte. now rewrite ascii_N_embedding. Qed.

(** The lazy scan stops at the first right bracket when no newline comes
    before it. *)
Lemma lazy_any_rbracket_match tok rest :
  free_of 93 tok -> free_of 10 tok ->
  regexp.lazy_any_rbracket (tok +:+ "]" +:+ rest) = Some (tok +:+ "]").
Proof.
  induction tok as [|c tok IH]; [reflexivity|].
  rewrite !free_of_cons. intros [H1 H2] [H3 H4].
  rewrite !(append_cons c tok). cbn [regexp.lazy_any_rbracket].
  destruct (N.eqb_spec (byte c) 93); [congruence|].
  destruct (N.eqb_spec (byte c) 10); [congruence|].
  now rewrite IH.
Qed.

Lemma lazy_any_rbracket_sound s m :
  regexp.lazy_any_rbracket s = Some m ->
  exists tok rest,
    s = tok +:+ "]" +:+ rest /\ m = tok +:+ "]"
    /\ free_of 93 tok /\ free_of 10 tok.
Proof.
  revert m. induction s as [|c s IH]; [discriminate|].
  intros m. cbn [regexp.lazy_any_rbracket].
  destruct (N.eqb_spec (byte c) 93) as [E|E].
  { intros [= <-]. exists "", s. apply byte_eq in E as ->.
    repeat split; apply free_of_nil. }
  destruct (N.eqb_spec (byte c) 10) as [E'|E']; [discriminate|].
  destruct (regexp.lazy_any_rbracket s) as [m'|]; [|discriminate].
  intros [= <-]. destruct (IH m' eq_refl) as (tok & rest & -> & -> & H1 & H2).
  exists (String c tok), rest. rewrite !free_of_cons. auto.
Qed.

Lemma FindString_match tok rest :
  free_of 93 tok -> free_of 10 tok ->
  regexp.FindString ("[" +:+ tok +:+ "]" +:+ rest) = Some ("[" +:+ tok +:+ "]").
Proof.
  intros H1 H2. rewrite !(append_one "[").
  cbn [regexp.FindString]. change (byte "[" =? 91) with true. cbv iota.
  now rewrite lazy_any_rbracket_match.
Qed.

Lemma FindString_sound s m :
  regexp.FindString s = Some m ->
  exists tok rest,
    s = "[" +:+ tok +:+ "]" +:+ rest /\ m = "[" +:+ tok +:+ "]"
    /\ free_of 93 tok /\ free_of 10 tok.
Proof.
  destruct s as [|c s]; [discriminate|]. cbn [regexp.FindString].
  destruct (N.eqb_spec (byte c) 91) as [E|E]; [|discriminate].
  destruct (regexp.lazy_any_rbracket s) as [m'|] eqn:L; [|discriminate].
  intros [= <-]. apply lazy_any_rbracket_sound in L as (tok & rest & -> & -> & H).
  exists tok, rest. apply byte_eq in E as ->. auto.
Qed.

(** [extractPrefix] on a message that opens with a bracketed token free of
    newlines. *)
Lemma extractPrefix_match tok rest :
  free_of 93 tok -> free_of 10 tok ->
  extractPrefix ("[" +:+ tok +:+ "]" +:+ rest) = (tok, strings.TrimSpace rest).
Proof.
  intros H1 H2. unfold extractPrefix. rewrite (FindString_match _ _ H1 H2).
  f_equal.
  - unfold slice. rewrite (append_one "[").
    cbn [String.length String.substring]. rewrite length_append.
    cbn [String.length].
    replace (S (String.length tok + 1) - 1 - 1)%nat with (String.length tok) by lia.
    apply substring_prefix.
  - f_equal. unfold slice_from.
    replace ("[" +:+ tok +:+ "]" +:+ rest) with (("[" +:+ tok +:+ "]") +:+ rest)
      by now rewrite !append_assoc.
    rewrite substring_skip, length_append.
    replace (String.length ("[" +:+ tok +:+ "]") + String.length rest
             - String.length ("[" +:+ tok +:+ "]"))%nat
      with (String.length rest) by lia.
    apply substring_all.
Qed.

(** [extractPrefix] finds nothing when the message does not open so. *)
Lemma extractPrefix_none msg :
  (forall tok rest, msg = "[" +:+ tok +:+ "]" +:+ rest ->
     free_of 93 tok -> free_of 10 tok -> tok = "") ->
  (extractPrefix msg).1 = "".
Proof.
  intros H. unfold extractPrefix.
  destruct (regexp.FindString msg) as [m|] eqn:E; [|reflexivity].
  apply FindString_sound in E as (tok & rest & -> & -> & H1 & H2).
  rewrite (H tok rest eq_refl H1 H2). reflexivity.
Qed.

End Brackets.

(** ** The coloured rendering *)

Section Coloured.

Variable isPrintTable : N -> bool.
Variable Time_Format : time.Time -> string -> string.
Variable A : ansi.lib.

Local Abbreviation format := (Format isPrintTable Time_Format A).

Lemma fold_colored_field lc (data : logrus.Fields) keys b :
  fold_left (colored_field A lc data) keys b = b +:+ colored_fields A lc data keys.
Proof.
  unfold colored_fields. revert b. induction keys as [|k keys IH]; intros b.
  - cbn. now rewrite append_nil_r.
  - cbn [fold_left map]. rewrite IH, concat_cons.
    unfold colored_field, colored_pair, reset. now rewrite !append_assoc.
Qed.

(** The coloured line, part by part. *)
Lemma printColored_eq env f c b entry keys layout :
  Colors f = Some c ->
  printColored Time_Format A env f b entry keys layout =
  Ok (b +:+ prefixColor A c +:+ "["
        +:+ stamp_text Time_Format env f entry layout +:+ "]" +:+ reset A +:+ " "
        +:+ levelColor A c (logrus.Entry.Level entry)
        +:+ fmt.pad5 (levelText (logrus.Entry.Level entry)) +:+ reset A
        +:+ (prefix_message A c entry).1 +:+ " " +:+ (prefix_message A c entry).2
        +:+ colored_fields A (levelColor A c (logrus.Entry.Level entry))
              (logrus.Entry.Data entry) keys).
Proof.
  intros Hc. unfold printColored. rewrite Hc.
  destruct (prefix_message A c entry) as [prefix message].
  rewrite fold_colored_field. unfold stamp_text. cbn [fst snd].
  now rewrite !append_assoc.
Qed.

Lemma Format_colored_eq env f c entry :
  isColored env f = true -> Colors f = Some c ->
  let entry' := (format env f entry).1 in
  (format env f entry).2 =
  Ok (prefixColor A c +:+ "["
        +:+ stamp_text Time_Format env f entry (layout_of f) +:+ "]" +:+ reset A +:+ " "
        +:+ levelColor A c (logrus.Entry.Level entry)
        +:+ fmt.pad5 (levelText (logrus.Entry.Level entry)) +:+ reset A
        +:+ (prefix_message A c entry').1 +:+ " " +:+ (prefix_message A c entry').2
        +:+ colored_fields A (levelColor A c (logrus.Entry.Level entry))
              (logrus.Entry.Data entry')
              (collect_keys env f (logrus.Entry.Data entry))
        +:+ nl, None).
Proof.
  intros Hi Hc entry'. unfold Format. cbn [snd]. rewrite Hi.
  fold (layout_of f). rewrite (printColored_eq _ _ c) by assumption.
  rewrite append_nil_l. unfold stamp_text.
  cbn [logrus.Entry.Time logrus.Entry.Level].
  now rewrite !append_assoc.
Qed.

Lemma Level_String_unknown level :
  (5 < level)%N -> logrus.Level_String level = "unknown".
Proof.
  intros H. unfold logrus.Level_String, logrus.DebugLevel, logrus.InfoLevel,
    logrus.WarnLevel, logrus.ErrorLevel, logrus.FatalLevel, logrus.PanicLevel.
  repeat match goal with
  | |- context [(level =? ?k)%N] => destruct (N.eqb_spec level k); [lia|]
  end.
  reflexivity.
Qed.

Lemma length_padding n c : String.length (fmt.padding n (String c "")) = n.
Proof.
  induction n as [|n IH]; [reflexivity|].
  cbn [fmt.padding]. rewrite append_one. cbn [String.length]. now rewrite IH.
Qed.

Lemma length_pad5 s : (5 <= String.length (fmt.pad5 s))%nat.
Proof. unfold fmt.pad5. rewrite length_append, length_padding. lia. Qed.

(** C7, as amended. In coloured mode the level label follows the stamp
    and the level colour. It is the level text right-aligned in five
    columns, longer texts being kept whole. The level text is the
    upper-cased name of the level, not abbreviated, except for the Warn
    level, where it is the constant [WARN]: the labels are [DEBUG],
    [ INFO], [ WARN], [ERROR], [FATAL], [PANIC], and [UNKNOWN] for any
    other level. *)
Theorem Format_colored_level_label env f c entry :
  isColored env f = true -> Colors f = Some c ->
  let level := logrus.Entry.Level entry in
  let label := fmt.pad5 (levelText level) in
  (exists stamp rest,
     (format env f entry).2 =
     Ok (prefixColor A c +:+ "[" +:+ stamp +:+ "]" +:+ reset A +:+ " "
         +:+ levelColor A c level +:+ label +:+ reset A +:+ rest, None))
  /\ (5 <= String.length label)%nat
  /\ label = fmt.padding (5 - String.length (levelText level)) " " +:+ levelText level
  /\ (level = logrus.WarnLevel -> label = " WARN")
  /\ (level <> logrus.WarnLevel ->
      levelText level = strings.ToUpper (logrus.Level_String level))
  /\ (level = logrus.DebugLevel -> label = "DEBUG")
  /\ (level = logrus.InfoLevel -> label = " INFO")
  /\ (level = logrus.ErrorLevel -> label = "ERROR")
  /\ (level = logrus.FatalLevel -> label = "FATAL")
  /\ (level = logrus.PanicLevel -> label = "PANIC")
  /\ ((5 < level)%N -> label = "UNKNOWN").
Proof.
  intros Hi Hc level label.
  split; [|split; [|split; [|split; [|split; [|split; [|split; [|split; [|split; [|split]]]]]]]]].
  - rewrite (Format_colored_eq env f c entry Hi Hc). eauto.
  - apply length_pad5.
  - reflexivity.
  - subst label. now intros ->.
  - intros H. unfold levelText.
    destruct (N.eqb_spec level logrus.WarnLevel); [contradiction | reflexivity].
  - subst label. now intros ->.
  - subst label. now intros ->.
  - subst label. now intros ->.
  - subst label. now intros ->.
  - subst label. now intros ->.
  - intros H. subst label. unfold levelText.
    destruct (N.eqb_spec level logrus.WarnLevel) as [E|_];
      [unfold logrus.WarnLevel in E; lia|].
    cbn [negb]. now rewrite Level_String_unknown.
Qed.

Lemma prefix_lookup_clashes (data : logrus.Fields) :
  prefixFieldClashes data !! "prefix" = data !! "prefix".
Proof.
  rewrite prefixFieldClashes_steps. now rewrite !copy_key_other by discriminate.
Qed.

(** C4, as amended. In coloured mode the line is the head, the prefix
    annotation, a space, the displayed message, the fields. With a
    ["prefix"] field the annotation shows its value and the message is
    intact. Without one, a message that opens with a bracketed token
    holding no newline, the token ending at the first right bracket and
    not empty, gives the token as prefix and, as message, what follows
    the bracket with the white space at both its ends trimmed. In every
    other case there is no annotation and the message is intact. The
    message [[worker] started job] gives [worker] and [started job]. *)
Theorem Format_colored_prefix env f c entry :
  isColored env f = true -> Colors f = Some c ->
  let msg := logrus.Entry.Message entry in
  let data := logrus.Entry.Data entry in
  let lc := levelColor A c (logrus.Entry.Level entry) in
  exists P M,
    (format env f entry).2 =
      Ok (prefixColor A c +:+ "["
          +:+ stamp_text Time_Format env f entry (layout_of f) +:+ "]" +:+ reset A
          +:+ " " +:+ lc +:+ fmt.pad5 (levelText (logrus.Entry.Level entry))
          +:+ reset A
          +:+ P +:+ " " +:+ M
          +:+ colored_fields A lc (prefixFieldClashes data) (collect_keys env f data)
          +:+ nl, None)
    /\ (forall v, data !! "prefix" = Some v ->
          P = prefixColor A c +:+ " " +:+ fmt.verb_s v +:+ ":" +:+ reset A
          /\ M = msg)
    /\ (data !! "prefix" = None ->
        forall tok rest, msg = "[" +:+ tok +:+ "]" +:+ rest ->
          free_of 93 tok -> free_of 10 tok -> tok <> "" ->
          P = prefixColor A c +:+ " " +:+ tok +:+ ":" +:+ reset A
          /\ M = strings.TrimSpace rest)
    /\ (data !! "prefix" = None ->
        (forall tok rest, msg = "[" +:+ tok +:+ "]" +:+ rest ->
           free_of 93 tok -> free_of 10 tok -> tok = "") ->
        P = "" /\ M = msg)
    /\ extractPrefix "[worker] started job" = ("worker", "started job").
Proof.
  intros Hi Hc msg data lc.
  eexists _, _. split; [apply (Format_colored_eq env f c entry Hi Hc)|].
  unfold Format. cbn [fst]. unfold prefix_message.
  cbn [logrus.Entry.Data logrus.Entry.Message]. rewrite prefix_lookup_clashes.
  fold data msg. split; [|split; [|split]].
  - intros v ->. cbn [fst snd]. split; reflexivity.
  - intros -> tok rest -> H1 H2 Hne.
    rewrite (extractPrefix_match _ _ H1 H2).
    destruct (String.eqb_spec tok ""); [contradiction|]. cbn [negb fst snd].
    split; reflexivity.
  - intros -> H. pose proof (extractPrefix_none msg H) as E.
    destruct (extractPrefix msg) as [p m]. cbn [fst] in E. subst p.
    cbn. split; reflexivity.
  - reflexivity.
Qed.

End Coloured.

(** C7, witness. A Warn entry: the label is [ WARN]. *)
Lemma Format_colored_level_label_witness :
  exists stamp rest,
    (Sample.Format Sample.env Sample.colored
       (Sample.entry logrus.WarnLevel "m" ∅)).2 =
    Ok (prefixColor Sample.A Sample.palette +:+ "[" +:+ stamp +:+ "]"
        +:+ reset Sample.A +:+ " "
        +:+ levelColor Sample.A Sample.palette logrus.WarnLevel
        +:+ " WARN" +:+ reset Sample.A +:+ rest, None).
Proof.
  destruct (Format_colored_level_label Sample.isPrintTable Sample.Time_Format
              Sample.A Sample.env Sample.colored Sample.palette
              (Sample.entry logrus.WarnLevel "m" ∅) eq_refl eq_refl)
    as ((stamp & rest & E) & _ & _ & Hw & _).
  exists stamp, rest. rewrite <- (Hw eq_refl). exact E.
Defined.

(** C7, counterexample. The label of a Debug entry is [DEBUG], the whole
    upper-cased name, not the four letters [DEBU]; likewise [ERROR]. *)
Lemma Format_debug_label_counterexample :
  (Sample.Format Sample.env Sample.colored
     (Sample.entry logrus.DebugLevel "m" ∅)).2 =
  Ok (Sample.esc +:+ "[90m[Jan  2 15:04:05]" +:+ Sample.esc +:+ "[0m "
      +:+ Sample.esc +:+ "[37mDEBUG" +:+ Sample.esc +:+ "[0m m" +:+ nl, None)
  /\ fmt.pad5 (levelText logrus.DebugLevel) = "DEBUG"
  /\ fmt.pad5 (levelText logrus.DebugLevel) <> " DEBU"
  /\ fmt.pad5 (levelText logrus.ErrorLevel) = "ERROR".
Proof.
  split; [vm_compute; reflexivity|]. split; [reflexivity|].
  split; [vm_compute; discriminate | reflexivity].
Qed.

(** C4, witness. The message [[worker] started job] without a prefix
    field. *)
Lemma Format_colored_prefix_witness :
  (Sample.Format Sample.env Sample.colored
     (Sample.entry logrus.InfoLevel "[worker] started job" ∅)).2 =
  Ok (Sample.esc +:+ "[90m[Jan  2 15:04:05]" +:+ Sample.esc +:+ "[0m "
      +:+ Sample.esc +:+ "[34m INFO" +:+ Sample.esc +:+ "[0m"
      +:+ Sample.esc +:+ "[90m worker:" +:+ Sample.esc +:+ "[0m"
      +:+ " started job" +:+ nl, None).
Proof.
  destruct (Format_colored_prefix Sample.isPrintTable Sample.Time_Format
              Sample.A Sample.env Sample.colored Sample.palette
              (Sample.entry logrus.InfoLevel "[worker] started job" ∅)
              eq_refl eq_refl)
    as (P & M & E & _ & Hb & _).
  destruct (Hb eq_refl "worker" " started job" eq_refl) as [-> ->].
  - unfold free_of. cbn. repeat constructor; discriminate.
  - unfold free_of. cbn. repeat constructor; discriminate.
  - discriminate.
  - etransitivity; [exact E|]. vm_compute. reflexivity.
Defined.

(** C4, counterexample. The message opens with a left bracket and holds
    the matching right bracket, but a newline stands between them:
    nothing is taken as prefix and the message is displayed whole. *)
Lemma extractPrefix_newline_counterexample :
  extractPrefix ("[a" +:+ nl +:+ "b] c") = ("", "[a" +:+ nl +:+ "b] c")
  /\ (Sample.Format Sample.env Sample.colored
        (Sample.entry logrus.InfoLevel ("[a" +:+ nl +:+ "b] c") ∅)).2 =
     Ok (Sample.esc +:+ "[90m[Jan  2 15:04:05]" +:+ Sample.esc +:+ "[0m "
         +:+ Sample.esc +:+ "[34m INFO" +:+ Sample.esc +:+ "[0m"
         +:+ " [a" +:+ nl +:+ "b] c" +:+ nl, None).
Proof. split; vm_compute; reflexivity. Qed.

(** * Further properties of the code *)

(** ** The renaming, applied again *)

Section ClashesAgain.

Implicit Types (data : logrus.Fields) (k : string) (v : Value).

(** The map after the renaming, key by key. *)
Lemma prefixFieldClashes_lookup data k :
  prefixFieldClashes data !! k =
  if decide (k = "fields.time") then
    match data !! "time" with Some v => Some v | None => data !! k end
  else if decide (k = "fields.msg") then
    match data !! "msg" with Some v => Some v | None => data !! k end
  else if decide (k = "fields.level") then
    match data !! "level" with Some v => Some v | None => data !! k end
  else data !! k.
Proof.
  rewrite prefixFieldClashes_steps.
  destruct (decide (k = "fields.time")) as [->|H1].
  { rewrite 2!copy_key_other by discriminate. apply copy_key_dst. }
  destruct (decide (k = "fields.msg")) as [->|H2].
  { rewrite copy_key_other by discriminate. rewrite copy_key_dst.
    now rewrite !copy_key_other by discriminate. }
  destruct (decide (k = "fields.level")) as [->|H3].
  { rewrite copy_key_dst. now rewrite !copy_key_other by discriminate. }
  now rewrite !copy_key_other.
Qed.

Lemma reserved_cases r (P : string -> Prop) :
  r ∈ reserved -> P "time" -> P "msg" -> P "level" -> P r.
Proof.
  intros Hr Ht Hm Hl. unfold reserved in Hr.
  apply elem_of_cons in Hr as [->|Hr]; [exact Ht|].
  apply elem_of_cons in Hr as [->|Hr]; [exact Hm|].
  apply elem_of_cons in Hr as [->|Hr]; [exact Hl|]. inversion Hr.
Qed.

Lemma reserved_elem : "time" ∈ reserved /\ "msg" ∈ reserved /\ "level" ∈ reserved.
Proof. unfold reserved. repeat split; repeat constructor. Qed.

Lemma prefixFieldClashes_reserved data r :
  r ∈ reserved -> prefixFieldClashes data !! r = data !! r.
Proof.
  intros Hr.
  apply (reserved_cases r (fun r => prefixFieldClashes data !! r = data !! r) Hr);
    rewrite prefixFieldClashes_steps; now rewrite !copy_key_other by discriminate.
Qed.

Lemma prefixFieldClashes_copy data r v :
  r ∈ reserved -> data !! r = Some v ->
  prefixFieldClashes data !! ("fields." +:+ r) = Some v.
Proof.
  intros Hr. revert v.
  apply (reserved_cases r (fun r => forall v, data !! r = Some v ->
           prefixFieldClashes data !! ("fields." +:+ r) = Some v) Hr);
    intros v Hv; rewrite prefixFieldClashes_steps.
  - rewrite 2!copy_key_other by discriminate. rewrite copy_key_dst. now rewrite Hv.
  - rewrite copy_key_other by discriminate. rewrite copy_key_dst.
    rewrite copy_key_other by discriminate. now rewrite Hv.
  - rewrite copy_key_dst. rewrite !copy_key_other by discriminate. now rewrite Hv.
Qed.

Lemma prefixFieldClashes_twice data :
  prefixFieldClashes (prefixFieldClashes data) = prefixFieldClashes data.
Proof.
  destruct reserved_elem as (Rt & Rm & Rl).
  apply map_eq. intros k.
  rewrite (prefixFieldClashes_lookup (prefixFieldClashes data)).
  rewrite (prefixFieldClashes_reserved data "time" Rt),
    (prefixFieldClashes_reserved data "msg" Rm),
    (prefixFieldClashes_reserved data "level" Rl).
  rewrite (prefixFieldClashes_lookup data k).
  repeat case_decide; try reflexivity;
    match goal with |- context [data !! ?r] => destruct (data !! r) end;
    reflexivity.
Qed.

(** X1. [prefixFieldClashes] changes nothing in a map that holds none of
    the reserved keys, and applying it a second time changes nothing
    more. A key is in the map afterwards exactly when it was there before
    or is the prefixed form of a reserved key that was there. *)
Theorem prefixFieldClashes_idempotent data :
  (data !! "time" = None -> data !! "msg" = None -> data !! "level" = None ->
     prefixFieldClashes data = data)
  /\ prefixFieldClashes (prefixFieldClashes data) = prefixFieldClashes data
  /\ (forall k, is_Some (prefixFieldClashes data !! k) <->
        is_Some (data !! k)
        \/ exists r, r ∈ reserved /\ k = "fields." +:+ r /\ is_Some (data !! r)).
Proof.
  destruct reserved_elem as (Rt & Rm & Rl).
  split; [|split].
  - intros Ht Hm Hl. apply map_eq. intros k.
    rewrite prefixFieldClashes_lookup, Ht, Hm, Hl.
    repeat case_decide; reflexivity.
  - apply prefixFieldClashes_twice.
  - intros k. split.
    + rewrite prefixFieldClashes_lookup.
      destruct (decide (k = "fields.time")) as [->|_].
      { destruct (data !! "time") eqn:E; [|now left].
        intros _. right. exists "time". rewrite E. eauto. }
      destruct (decide (k = "fields.msg")) as [->|_].
      { destruct (data !! "msg") eqn:E; [|now left].
        intros _. right. exists "msg". rewrite E. eauto. }
      destruct (decide (k = "fields.level")) as [->|_].
      { destruct (data !! "level") eqn:E; [|now left].
        intros _. right. exists "level". rewrite E. eauto. }
      now left.
    + intros [[v H]|(r & Hr & -> & [v Hv])].
      * rewrite prefixFieldClashes_lookup.
        repeat case_decide; subst; eauto;
          match goal with |- context [match data !! ?r with _ => _ end] =>
            destruct (data !! r); eauto end.
      * rewrite (prefixFieldClashes_copy _ _ _ Hr Hv). eauto.
Qed.

End ClashesAgain.

(** ** Calls on the same entry, and the fields of a line *)

Section Calls.

Variable isPrintTable : N -> bool.
Variable Time_Format : time.Time -> string -> string.
Variable A : ansi.lib.

Local Abbreviation format := (Format isPrintTable Time_Format A).
Local Abbreviation pair := (pair_text isPrintTable).

Lemma prefixed_not_prefix r : "fields." +:+ r <> "prefix".
Proof. discriminate. Qed.

Lemma concat_app (l1 l2 : list string) :
  String.concat "" (l1 ++ l2) = String.concat "" l1 +:+ String.concat "" l2.
Proof.
  induction l1 as [|x l1 IH]; [reflexivity|].
  cbn [app]. now rewrite !concat_cons, IH, append_assoc.
Qed.

(** X2. The renaming is done on the caller's map after the keys of the
    call were collected. For a reserved key present in the fields whose
    prefixed key is absent, the first call does not render the prefixed
    key; a second call on the same entry collects it, with the value of
    the reserved key; and the second call leaves the entry as the first
    call left it. *)
Theorem Format_second_call env f entry r v :
  range_ok env -> r ∈ reserved ->
  logrus.Entry.Data entry !! r = Some v ->
  logrus.Entry.Data entry !! ("fields." +:+ r) = None ->
  let e1 := (format env f entry).1 in
  (("fields." +:+ r) ∉ collect_keys env f (logrus.Entry.Data entry))
  /\ ("fields." +:+ r) ∈ collect_keys env f (logrus.Entry.Data e1)
  /\ logrus.index (prefixFieldClashes (logrus.Entry.Data e1)) ("fields." +:+ r) = v
  /\ (format env f e1).1 = e1.
Proof.
  intros Hr Hin Hv Hn e1.
  assert (E1 : logrus.Entry.Data e1 = prefixFieldClashes (logrus.Entry.Data entry))
    by reflexivity.
  split; [|split; [|split]].
  - now apply clash_copy_not_collected.
  - apply collect_keys_elem; [assumption|]. split; [apply prefixed_not_prefix|].
    rewrite E1, (prefixFieldClashes_copy _ _ _ Hin Hv). eauto.
  - rewrite E1, prefixFieldClashes_twice.
    unfold logrus.index. now rewrite (prefixFieldClashes_copy _ _ _ Hin Hv).
  - unfold e1, Format. cbn [fst logrus.Entry.Data logrus.Entry.Time
      logrus.Entry.Level logrus.Entry.Message].
    now rewrite prefixFieldClashes_twice.
Qed.

(** X3. In plain mode, when the fields hold a reserved key and its
    prefixed key as well, the pair rendered for the prefixed key carries
    the value of the reserved key: the value the fields held under the
    prefixed key is overwritten before it is rendered. *)
Theorem Format_plain_clash_overwrites env f entry r v :
  range_ok env -> isColored env f = false -> r ∈ reserved ->
  logrus.Entry.Data entry !! r = Some v ->
  is_Some (logrus.Entry.Data entry !! ("fields." +:+ r)) ->
  let data' := prefixFieldClashes (logrus.Entry.Data entry) in
  exists before after,
    collect_keys env f (logrus.Entry.Data entry) = before ++ ("fields." +:+ r) :: after
    /\ (format env f entry).2 =
       Ok ((if DisableTimestamp f then ""
            else pair "time"
                   (VString (Time_Format (logrus.Entry.Time entry) (layout_of f))))
           +:+ pair "level" (VString (logrus.Level_String (logrus.Entry.Level entry)))
           +:+ (if String.eqb (logrus.Entry.Message entry) "" then ""
                else pair "msg" (VString (logrus.Entry.Message entry)))
           +:+ String.concat "" (map (fun k => pair k (logrus.index data' k)) before)
           +:+ pair ("fields." +:+ r) v
           +:+ String.concat "" (map (fun k => pair k (logrus.index data' k)) after)
           +:+ nl, None).
Proof.
  intros Hr Hc Hin Hv Hw data'.
  assert (Hk : ("fields." +:+ r) ∈ collect_keys env f (logrus.Entry.Data entry)).
  { apply collect_keys_elem; [assumption|]. split; [apply prefixed_not_prefix | exact Hw]. }
  apply list_elem_of_split in Hk as (before & after & Hk).
  exists before, after. split; [exact Hk|].
  unfold Format. cbn [snd]. rewrite Hc. fold (layout_of f).
  rewrite printPlain_eq. cbn [logrus.Entry.Data logrus.Entry.Time
    logrus.Entry.Level logrus.Entry.Message].
  rewrite Hk, map_app, concat_app. cbn [map]. rewrite concat_cons.
  fold data'. unfold logrus.index at 2.
  unfold data' at 2. rewrite (prefixFieldClashes_copy _ _ _ Hin Hv). cbn [default].
  now rewrite !append_assoc.
Qed.

(** X4. In coloured mode the line ends with one item for each key of the
    fields other than ["prefix"], each key once, in ascending byte-wise
    order when sorting is enabled: a space, the key between the level
    colour and the reset sequence, an equals sign, and the value in its
    default format with field names, strings as they are, without
    quotes. *)
Theorem Format_colored_fields env f c entry :
  range_ok env -> isColored env f = true -> Colors f = Some c ->
  let lc := levelColor A c (logrus.Entry.Level entry) in
  let data' := prefixFieldClashes (logrus.Entry.Data entry) in
  exists head keys,
    (forall k, k ∈ keys <->
       k <> "prefix" /\ is_Some (logrus.Entry.Data entry !! k))
    /\ NoDup keys
    /\ (DisableSorting f = false -> StronglySorted String.le keys)
    /\ (format env f entry).2 =
       Ok (head
           +:+ String.concat ""
                 (map (fun k => " " +:+ lc +:+ k +:+ ansi.Reset A +:+ "="
                                +:+ fmt.plus_v (logrus.index data' k)) keys)
           +:+ nl, None)
    /\ (forall s, fmt.plus_v (VString s) = s /\ fmt.plus_v (VError s) = s).
Proof.
  intros Hr Hi Hc lc data'.
  eexists _, (collect_keys env f (logrus.Entry.Data entry)).
  split; [|split; [|split; [|split]]].
  - intros k. now apply collect_keys_elem.
  - now apply collect_keys_NoDup.
  - apply collect_keys_sorted.
  - rewrite (Format_colored_eq _ _ _ env f c entry Hi Hc).
    unfold colored_fields, colored_pair. rewrite <- !append_assoc.
    reflexivity.
  - intros s. split; reflexivity.
Qed.

End Calls.

(** ** What each mode reads of the configuration *)

Section Options.

Variable Time_Format : time.Time -> string -> string.

(** X5. The plain rendering reads only the options DisableTimestamp,
    TimestampFormat and DisableSorting: with these equal and the keys
    iterated in the same order, two calls in plain mode give the same
    result whatever the palette, the escape sequences of package [ansi],
    the short-timestamp option and the time elapsed since start are. *)
Theorem Format_plain_reads isPrintTable A1 A2 env1 env2 f1 f2 entry :
  isColored env1 f1 = false -> isColored env2 f2 = false ->
  DisableTimestamp f1 = DisableTimestamp f2 ->
  TimestampFormat f1 = TimestampFormat f2 ->
  DisableSorting f1 = DisableSorting f2 ->
  range_keys env1 (logrus.Entry.Data entry) = range_keys env2 (logrus.Entry.Data entry) ->
  Format isPrintTable Time_Format A1 env1 f1 entry
  = Format isPrintTable Time_Format A2 env2 f2 entry.
Proof.
  intros H1 H2 Ht Hf Hs Hk.
  unfold Format, collect_keys, printPlain. now rewrite H1, H2, Ht, Hf, Hs, Hk.
Qed.

(** X6. The coloured rendering does not read DisableTimestamp, and it
    quotes nothing: with the other options equal, two coloured calls give
    the same result whatever DisableTimestamp and the table of printable
    runes are. The stamp is written even when timestamps are disabled. *)
Theorem Format_colored_reads isPrintTable1 isPrintTable2 A env f1 f2 entry :
  isColored env f1 = true -> isColored env f2 = true ->
  ShortTimestamp f1 = ShortTimestamp f2 ->
  TimestampFormat f1 = TimestampFormat f2 ->
  DisableSorting f1 = DisableSorting f2 ->
  Colors f1 = Colors f2 ->
  Format isPrintTable1 Time_Format A env f1 entry
  = Format isPrintTable2 Time_Format A env f2 entry
  /\ (forall c, Colors f1 = Some c ->
        exists rest,
          (Format isPrintTable1 Time_Format A env f1 entry).2 =
          Ok (prefixColor A c +:+ "["
              +:+ stamp_text Time_Format env f1 entry (layout_of f1)
              +:+ "]" +:+ rest, None)).
Proof.
  intros H1 H2 Hs Hf Hd Hc. split.
  - unfold Format, collect_keys, printColored.
    now rewrite H1, H2, Hs, Hf, Hd, Hc.
  - intros c Hcc. rewrite (Format_colored_eq isPrintTable1 _ _ env f1 c entry H1 Hcc).
    eauto.
Qed.

Lemma levelColor_role A c1 c2 level :
  level_role level c1 = level_role level c2 ->
  levelColor A c1 level = levelColor A c2 level.
Proof.
  unfold level_role, levelColor.
  repeat match goal with
  | |- context [if ?b then _ else _] => destruct b
  end; now intros ->.
Qed.

(** X11. For the level colour the coloured rendering reads one role of the
    palette: Debug, Info, Warn for these levels, Error for the Error,
    Fatal and Panic levels, Default for any other level. Two palettes
    that agree on that role and on the Prefix role give the same
    result. *)
Theorem Format_palette_roles isPrintTable A env entry fc dc dt st tf ds c1 c2 :
  Colors.Prefix c1 = Colors.Prefix c2 ->
  level_role (logrus.Entry.Level entry) c1 = level_role (logrus.Entry.Level entry) c2 ->
  Format isPrintTable Time_Format A env
    {| ForceColors := fc; DisableColors := dc; DisableTimestamp := dt;
       ShortTimestamp := st; TimestampFormat := tf; DisableSorting := ds;
       Colors := Some c1 |} entry
  = Format isPrintTable Time_Format A env
    {| ForceColors := fc; DisableColors := dc; DisableTimestamp := dt;
       ShortTimestamp := st; TimestampFormat := tf; DisableSorting := ds;
       Colors := Some c2 |} entry.
Proof.
  intros Hp Hl. unfold Format, isColored, printColored, prefix_message,
    annotation, prefixColor.
  cbn [ForceColors DisableColors DisableTimestamp ShortTimestamp TimestampFormat
       DisableSorting Colors logrus.Entry.Level logrus.Entry.Data
       logrus.Entry.Message logrus.Entry.Time].
  now rewrite Hp, (levelColor_role A c1 c2 _ Hl).
Qed.

(** X12. [miniTS] counts the whole seconds elapsed, rounding towards
    zero: for a time elapsed that is not negative the count [n] satisfies
    [n s <= elapsed < (n + 1) s]; a time elapsed of less than a second in
    either direction counts as zero. *)
Theorem miniTS_whole_seconds env :
  (0 <= since_baseTimestamp env ->
     0 <= miniTS env
     /\ miniTS env * time.Second <= since_baseTimestamp env
        < (miniTS env + 1) * time.Second)%Z
  /\ (- time.Second < since_baseTimestamp env < time.Second -> miniTS env = 0)%Z
  /\ (since_baseTimestamp env <= 0 ->
      miniTS env <= 0
      /\ (miniTS env - 1) * time.Second < since_baseTimestamp env
         <= miniTS env * time.Second)%Z.
Proof.
  unfold miniTS, time.Second. set (d := since_baseTimestamp env). clearbody d.
  split; [|split].
  - intros Hd. rewrite Z.quot_div_nonneg by lia.
    pose proof (Z.div_mod d 1000000000 ltac:(lia)).
    pose proof (Z.mod_pos_bound d 1000000000 ltac:(lia)).
    assert (0 <= d / 1000000000)%Z by (apply Z.div_pos; lia). lia.
  - intros Hd. apply Z.quot_small_iff; lia.
  - intros Hd.
    replace d with (- (- d))%Z by lia. rewrite Z.quot_opp_l by lia.
    rewrite Z.quot_div_nonneg by lia.
    pose proof (Z.div_mod (- d) 1000000000 ltac:(lia)).
    pose proof (Z.mod_pos_bound (- d) 1000000000 ltac:(lia)).
    assert (0 <= (- d) / 1000000000)%Z by (apply Z.div_pos; lia). lia.
Qed.

End Options.

(** ** The prefix taken from the message *)

Section PrefixOfMessage.

Lemma substring_0_prefix n (s : string) :
  exists suf, s = String.substring 0 n s +:+ suf.
Proof.
  revert n. induction s as [|c s IH]; intros [|n].
  - exists "". reflexivity.
  - exists "". reflexivity.
  - exists (String c s). reflexivity.
  - destruct (IH n) as [suf E]. exists suf.
    cbn [String.substring]. rewrite append_cons. now rewrite <- E.
Qed.

(** The runes of a string, put together again, are the string. *)
Lemma range_concat (s : string) :
  String.concat "" (map snd (utf8.range s)) = s.
Proof.
  apply range_ind with (s := s); [reflexivity|].
  intros r bs rest _ IH. cbn [map snd]. now rewrite concat_cons, IH.
Qed.

Lemma TrimLeftFunc_suffix (s : string) f :
  exists pre, s = pre +:+ strings.TrimLeftFunc s f.
Proof.
  unfold strings.TrimLeftFunc. apply range_ind with (s := s).
  - exists "". reflexivity.
  - intros r bs rest _ [pre IH]. cbn [strings.drop_runes].
    destruct (f r).
    + exists (bs +:+ pre). now rewrite append_assoc, <- IH.
    + exists "". now rewrite range_concat.
Qed.

Lemma TrimRightFunc_prefix (s : string) f :
  exists suf, s = strings.TrimRightFunc s f +:+ suf.
Proof.
  unfold strings.TrimRightFunc, slice.
  destruct (strings.lastIndexFunc s f) as [i|].
  - destruct (utf8.RuneSelf <=? byte_at s i)%N.
    + destruct (utf8.DecodeRuneInString _) as [r wid]. apply substring_0_prefix.
    + apply substring_0_prefix.
  - apply substring_0_prefix.
Qed.

(** [strings.TrimSpace] returns a contiguous part of its argument. *)
Lemma TrimSpace_infix (s : string) :
  exists pre suf, s = pre +:+ strings.TrimSpace s +:+ suf.
Proof.
  unfold strings.TrimSpace, strings.TrimFunc.
  destruct (TrimLeftFunc_suffix s unicode.IsSpace) as [pre E].
  destruct (TrimRightFunc_prefix (strings.TrimLeftFunc s unicode.IsSpace)
              unicode.IsSpace) as [suf E'].
  exists pre, suf. now rewrite <- E', <- E.
Qed.

(** X7. What [extractPrefix] returns. Either the message opens with a
    left bracket, a token free of right brackets and newlines, and a
    right bracket, and the result is that token with what follows the
    bracket, white space trimmed at both ends; or the message does not
    open so and the result is the empty prefix with the message as it is.
    In both cases the returned message is a contiguous part of the
    original one. *)
Theorem extractPrefix_sound msg :
  ((exists tok rest,
      msg = "[" +:+ tok +:+ "]" +:+ rest /\ free_of 93 tok /\ free_of 10 tok
      /\ extractPrefix msg = (tok, strings.TrimSpace rest))
   \/ (extractPrefix msg = ("", msg)
       /\ forall tok rest, msg = "[" +:+ tok +:+ "]" +:+ rest ->
            free_of 93 tok -> ~ free_of 10 tok))
  /\ (exists pre suf, msg = pre +:+ (extractPrefix msg).2 +:+ suf).
Proof.
  destruct (regexp.FindString msg) as [m|] eqn:E.
  - apply FindString_sound in E as (tok & rest & -> & -> & H1 & H2).
    split.
    + left. exists tok, rest. repeat split; try assumption.
      now apply extractPrefix_match.
    + rewrite (extractPrefix_match _ _ H1 H2). cbn [snd].
      destruct (TrimSpace_infix rest) as (pre & suf & Er).
      exists ("[" +:+ tok +:+ "]" +:+ pre), suf.
      rewrite !append_assoc. now rewrite <- Er.
  - assert (Ex : extractPrefix msg = ("", msg)) by (unfold extractPrefix; now rewrite E).
    split.
    + right. split; [exact Ex|]. intros tok rest -> H1 H2.
      rewrite (FindString_match _ _ H1 H2) in E. discriminate.
    + rewrite Ex. exists "", "". now rewrite append_nil_r.
Qed.

End PrefixOfMessage.

Section BracketAndField.

Variable isPrintTable : N -> bool.
Variable Time_Format : time.Time -> string -> string.
Variable A : ansi.lib.

Local Abbreviation format := (Format isPrintTable Time_Format A).

Lemma prefixFieldClashes_insert_prefix (data : logrus.Fields) x k :
  k <> "prefix" ->
  prefixFieldClashes (<["prefix" := x]> data) !! k = prefixFieldClashes data !! k.
Proof.
  intros Hk. rewrite !prefixFieldClashes_lookup.
  rewrite !(lookup_insert_ne data "prefix") by (try discriminate; congruence).
  reflexivity.
Qed.

Lemma collect_keys_insert_prefix env f (data : logrus.Fields) x :
  range_ok env -> DisableSorting f = false ->
  collect_keys env f (<["prefix" := x]> data) = collect_keys env f data.
Proof.
  intros Hr Hs. apply (StronglySorted_unique String.le).
  - now apply collect_keys_sorted.
  - now apply collect_keys_sorted.
  - apply NoDup_Permutation; try now apply collect_keys_NoDup.
    intros k. rewrite !collect_keys_elem by assumption.
    split; intros [Hk H]; (split; [assumption|]).
    + now rewrite lookup_insert_ne in H by congruence.
    + now rewrite lookup_insert_ne by congruence.
Qed.

(** X8. A prefix in brackets at the head of the message stands for the
    ["prefix"] field. In coloured mode with sorting, an entry without
    that field whose message opens with a bracketed token, not empty and
    free of right brackets and newlines, gives the same bytes as the
    entry that holds the token in the ["prefix"] field and, as message,
    what follows the bracket with the white space trimmed. *)
Theorem Format_bracket_as_prefix_field env f c data t level tok rest :
  range_ok env -> isColored env f = true -> Colors f = Some c ->
  DisableSorting f = false ->
  data !! "prefix" = None ->
  free_of 93 tok -> free_of 10 tok -> tok <> "" ->
  (format env f
     {| logrus.Entry.Data := data; logrus.Entry.Time := t;
        logrus.Entry.Level := level;
        logrus.Entry.Message := "[" +:+ tok +:+ "]" +:+ rest |}).2
  = (format env f
       {| logrus.Entry.Data := <["prefix" := VString tok]> data;
          logrus.Entry.Time := t; logrus.Entry.Level := level;
          logrus.Entry.Message := strings.TrimSpace rest |}).2.
Proof.
  intros Hr Hi Hc Hs Hp H1 H2 Hne.
  rewrite !(Format_colored_eq _ _ _ env f c) by assumption.
  unfold Format. cbn [fst logrus.Entry.Data logrus.Entry.Time logrus.Entry.Level
    logrus.Entry.Message].
  rewrite (collect_keys_insert_prefix env f data _ Hr Hs).
  assert (Ef : colored_fields A (levelColor A c level)
                 (prefixFieldClashes (<["prefix" := VString tok]> data))
                 (collect_keys env f data)
               = colored_fields A (levelColor A c level) (prefixFieldClashes data)
                   (collect_keys env f data)).
  { unfold colored_fields. f_equal. apply map_ext_in. intros k Hk.
    apply list_elem_of_In, collect_keys_elem in Hk as [Hk _]; [|assumption].
    unfold colored_pair, logrus.index.
    now rewrite prefixFieldClashes_insert_prefix. }
  rewrite Ef. unfold prefix_message, stamp_text.
  cbn [logrus.Entry.Data logrus.Entry.Message logrus.Entry.Time].
  rewrite !prefix_lookup_clashes, Hp, lookup_insert_eq.
  rewrite (extractPrefix_match _ _ H1 H2).
  destruct (String.eqb_spec tok ""); [contradiction|]. reflexivity.
Qed.

End BracketAndField.

(** ** Control characters in the plain line *)

Section Clean.

Local Open Scope N_scope.

Variable isPrintTable : N -> bool.
Variable Time_Format : time.Time -> string -> string.
Variable A : ansi.lib.

Local Abbreviation format := (Format isPrintTable Time_Format A).
Local Abbreviation pair := (pair_text isPrintTable).
Local Abbreviation Quote := (strconv.Quote isPrintTable).

Lemma clean_append a b : clean (a +:+ b) <-> clean a /\ clean b.
Proof. unfold clean. rewrite bytes_append. apply Forall_app. Qed.

Lemma clean_cons c s : clean (String c s) <-> visible_byte (byte c) /\ clean s.
Proof. unfold clean. rewrite bytes_cons. apply Forall_cons. Qed.

Lemma clean_nil : clean "".
Proof. constructor. Qed.

Ltac clean_literal :=
  repeat (apply clean_cons; split; [split; [now vm_compute | discriminate]|]);
  apply clean_nil.

Lemma clean_lowerhex d : d <= 15 -> clean (strconv.lowerhex d).
Proof.
  intros Hd. unfold strconv.lowerhex. apply clean_cons. split; [|apply clean_nil].
  unfold visible_byte, byte.
  destruct (N.ltb_spec d 10); rewrite N_ascii_embedding by lia; lia.
Qed.

Lemma clean_hex n r : clean (strconv.hex n r).
Proof.
  induction n as [|n IH]; [apply clean_nil|].
  cbn [strconv.hex]. apply clean_append. split; [|exact IH].
  apply clean_lowerhex.
  change 0xF with (N.ones 4). rewrite N.land_ones.
  change (2 ^ 4) with 16. change (N.ones 4) with 15.
  match goal with
  | |- ?x mod 16 <= 15 => pose proof (N.mod_upper_bound x 16 ltac:(lia)); lia
  end.
Qed.

Lemma clean_high bs : Forall (fun b => 0x80 <= b) (bytes bs) -> clean bs.
Proof.
  unfold clean. intros H. eapply Forall_impl; [exact H|].
  intros b Hb. cbn in Hb. unfold visible_byte. lia.
Qed.

Lemma IsPrint_visible r :
  r < 0x80 -> strconv.IsPrint isPrintTable r = true -> visible_byte r.
Proof.
  intros Hr. unfold strconv.IsPrint.
  destruct (N.leb_spec r 0xFF); [|lia].
  rewrite orb_true_iff, andb_true_iff, !between_spec. unfold visible_byte. lia.
Qed.

Lemma clean_appendEscapedRune r bs :
  (strconv.IsPrint isPrintTable r = true -> clean bs) ->
  clean (strconv.appendEscapedRune isPrintTable r bs).
Proof.
  intros Hbs. unfold strconv.appendEscapedRune.
  destruct (N.eqb_spec r 34) as [->|_]; [clean_literal|].
  destruct (N.eqb_spec r 92) as [->|_]; [clean_literal|]. cbn [orb].
  destruct (strconv.IsPrint isPrintTable r); [now apply Hbs|].
  repeat match goal with
  | |- context [if ?x =? ?k then _ else _] =>
    destruct (N.eqb_spec x k) as [->|_]; [clean_literal|]
  end.
  destruct ((r <? 32) || (r =? 0x7F)).
  - rewrite !clean_append. repeat split; [clean_literal | clean_literal | apply clean_hex].
  - destruct (_ <? 0x10000); rewrite !clean_append;
      (repeat split; [clean_literal | clean_literal | apply clean_hex]).
Qed.

Lemma clean_quote_rune r bs :
  chunk r bs -> clean (strconv.quote_rune isPrintTable (r, bs)).
Proof.
  intros Hch. unfold strconv.quote_rune.
  destruct ((String.length bs =? 1)%nat && (r =? utf8.RuneError)).
  { rewrite !clean_append. repeat split; [clean_literal | clean_literal | apply clean_hex]. }
  apply clean_appendEscapedRune. intros HP.
  destruct Hch as [c Hc|c Hc|r bs Hr Hl Hb].
  - apply clean_cons. split; [now apply IsPrint_visible | apply clean_nil].
  - apply clean_high. rewrite bytes_cons. repeat constructor. exact Hc.
  - now apply clean_high.
Qed.

Lemma clean_Quote s : clean (Quote s).
Proof.
  unfold strconv.Quote. rewrite !clean_append.
  split; [clean_literal|]. split; [|clean_literal].
  apply range_ind with (s := s); [apply clean_nil|].
  intros r bs rest Hch IH. cbn [map]. rewrite concat_cons, clean_append.
  split; [now apply clean_quote_rune | exact IH].
Qed.

Lemma clean_all_bare s : all_bare s -> clean s.
Proof.
  unfold all_bare, clean. intros H. eapply Forall_impl; [exact H|].
  intros b Hb. unfold bare_byte in Hb. unfold visible_byte. lia.
Qed.

Lemma clean_quote_or_raw s : clean (quote_or_raw isPrintTable s).
Proof.
  unfold quote_or_raw. destruct (needsQuoting s) eqn:E.
  - now apply clean_all_bare, needsQuoting_spec.
  - apply clean_Quote.
Qed.

Lemma clean_uint d : clean (NilEmpty.string_of_uint d).
Proof.
  induction d; cbn [NilEmpty.string_of_uint]; [apply clean_nil|..];
    (apply clean_cons; split; [split; [now vm_compute | discriminate] | exact IHd]).
Qed.

Lemma clean_Itoa z : clean (strconv.Itoa z).
Proof.
  unfold strconv.Itoa, NilZero.string_of_int, NilZero.string_of_uint.
  destruct (Z.to_int z) as [d|d].
  - destruct d; first [clean_literal | apply clean_uint].
  - apply clean_cons. split; [split; [now vm_compute | discriminate]|].
    destruct d; first [clean_literal | apply clean_uint].
Qed.

Lemma clean_value_text v : clean_value v -> clean (value_text isPrintTable v).
Proof.
  destruct v as [s|s|n|[]| |x y z]; cbn [clean_value value_text fmt.Fprint];
    intros H; first [apply clean_quote_or_raw | apply clean_Itoa | exact H | clean_literal].
Qed.

Lemma clean_pair k v : clean k -> clean_value v -> clean (pair k v).
Proof.
  intros Hk Hv. unfold pair_text. rewrite !clean_append.
  repeat split; [exact Hk | clean_literal | now apply clean_value_text | clean_literal].
Qed.

Lemma clean_concat (l : list string) :
  Forall clean l -> clean (String.concat "" l).
Proof.
  induction 1 as [|s l Hs _ IH]; [apply clean_nil|].
  rewrite concat_cons. now apply clean_append.
Qed.

(** X9. In plain mode no ASCII control character reaches the line
    through the message, the timestamp, or a string or error value: they
    are written bare or quoted, and quoting escapes control characters.
    When moreover no key of the fields other than ["prefix"] holds a
    control character and no value of another type prints with one, the
    line has none before the newline that ends it. *)
Theorem Format_plain_clean env f entry :
  range_ok env -> isColored env f = false ->
  (forall k v, logrus.Entry.Data entry !! k = Some v -> k <> "prefix" ->
     clean k /\ clean_value v) ->
  exists body, (format env f entry).2 = Ok (body +:+ nl, None) /\ clean body.
Proof.
  intros Hr Hc Hd. eexists. split.
  - unfold Format. cbn [snd]. rewrite Hc. reflexivity.
  - fold (layout_of f). rewrite printPlain_eq.
    cbn [logrus.Entry.Data logrus.Entry.Time logrus.Entry.Level logrus.Entry.Message].
    rewrite !clean_append. repeat split.
    + destruct (DisableTimestamp f); [apply clean_nil|].
      apply clean_pair; [clean_literal | exact I].
    + apply clean_pair; [clean_literal | exact I].
    + destruct (String.eqb _ ""); [apply clean_nil|].
      apply clean_pair; [clean_literal | exact I].
    + apply clean_concat, List.Forall_forall. intros s Hs.
      apply in_map_iff in Hs as (k & <- & Hin).
      apply list_elem_of_In, collect_keys_elem in Hin as [Hp [v Hv]]; [|assumption].
      apply clean_pair; [exact (proj1 (Hd k v Hv Hp))|].
      unfold logrus.index.
      destruct (prefixFieldClashes (logrus.Entry.Data entry) !! k) as [w|] eqn:Ew;
        [|exact I].
      cbn [default].
      apply prefixFieldClashes_lookup_inv in Ew as [Ew|[Ew|[Ew|Ew]]];
        refine (proj2 (Hd _ w Ew _)); [assumption | discriminate..].
Qed.

End Clean.

(** ** The short timestamp *)

Section ShortStamp.

Variable isPrintTable : N -> bool.
Variable Time_Format : time.Time -> string -> string.
Variable A : ansi.lib.

Local Abbreviation format := (Format isPrintTable Time_Format A).

(** Checked by running [%04d] on each count below ten thousand. *)
Lemma verb_04d_four_digits (z : Z) :
  (0 <= z < 10000)%Z -> four_digits (fmt.verb_04d z) = true.
Proof.
  intros Hz.
  assert (H : forallb (fun n => four_digits (fmt.verb_04d (Z.of_nat n)))
                (seq 0 (Z.to_nat 10000)) = true) by (vm_compute; reflexivity).
  rewrite forallb_forall in H.
  replace z with (Z.of_nat (Z.to_nat z)) by lia.
  apply H, in_seq. lia.
Qed.

(** X10. With short timestamps the coloured line opens with the prefix
    colour and, between brackets, the count of whole seconds since start;
    while less than ten thousand seconds have elapsed the count is
    written with exactly four decimal digits. *)
Theorem Format_short_stamp env f c entry :
  isColored env f = true -> Colors f = Some c -> ShortTimestamp f = true ->
  (0 <= since_baseTimestamp env < 10000 * time.Second)%Z ->
  exists rest,
    (format env f entry).2 =
      Ok (prefixColor A c +:+ "[" +:+ fmt.verb_04d (miniTS env) +:+ "]" +:+ rest, None)
    /\ four_digits (fmt.verb_04d (miniTS env)) = true.
Proof.
  intros Hi Hc Hs Hd. eexists. split.
  - rewrite (Format_colored_eq _ _ _ env f c entry Hi Hc).
    unfold stamp_text. rewrite Hs. reflexivity.
  - apply verb_04d_four_digits. unfold miniTS, time.Second in *.
    rewrite Z.quot_div_nonneg by lia. split.
    + apply Z.div_pos; lia.
    + apply Z.div_lt_upper_bound; lia.
Qed.

End ShortStamp.

(** ** Instances of the further properties *)

(** X2, witness. Fields that hold ["time"] only. *)
Lemma Format_second_call_witness :
  ("fields.time" ∉ collect_keys Sample.env Sample.plain {["time" := VString "X"]})
  /\ "fields.time" ∈
       collect_keys Sample.env Sample.plain
         (logrus.Entry.Data
            (Sample.Format Sample.env Sample.plain
               (Sample.entry logrus.InfoLevel "" {["time" := VString "X"]})).1).
Proof.
  assert (Hv : logrus.Entry.Data
                 (Sample.entry logrus.InfoLevel "" {["time" := VString "X"]})
               !! "time" = Some (VString "X")) by (vm_compute; reflexivity).
  assert (Hn : logrus.Entry.Data
                 (Sample.entry logrus.InfoLevel "" {["time" := VString "X"]})
               !! ("fields." +:+ "time") = None) by (vm_compute; reflexivity).
  destruct (Format_second_call Sample.isPrintTable Sample.Time_Format Sample.A
              Sample.env Sample.plain
              (Sample.entry logrus.InfoLevel "" {["time" := VString "X"]})
              "time" (VString "X") Sample_range_ok (proj1 reserved_elem)
              Hv Hn) as (H1 & H2 & _).
  split; [exact H1 | exact H2].
Defined.

(** X3, witness. Fields that hold ["time"] and ["fields.time"]. *)
Lemma Format_plain_clash_overwrites_witness :
  exists before after,
    collect_keys Sample.env Sample.plain Sample2.clash
    = before ++ "fields.time" :: after
    /\ logrus.index (prefixFieldClashes Sample2.clash) "fields.time" = VString "X".
Proof.
  assert (Hv : logrus.Entry.Data (Sample.entry logrus.InfoLevel "" Sample2.clash)
               !! "time" = Some (VString "X")) by (vm_compute; reflexivity).
  assert (Hw : is_Some (logrus.Entry.Data
                          (Sample.entry logrus.InfoLevel "" Sample2.clash)
                        !! ("fields." +:+ "time")))
    by (exists (VString "old"); vm_compute; reflexivity).
  destruct (Format_plain_clash_overwrites Sample.isPrintTable Sample.Time_Format
              Sample.A Sample.env Sample.plain
              (Sample.entry logrus.InfoLevel "" Sample2.clash)
              "time" (VString "X") Sample_range_ok eq_refl (proj1 reserved_elem)
              Hv Hw)
    as (before & after & Hk & _).
  exists before, after. split; [exact Hk | vm_compute; reflexivity].
Defined.

(** X4, witness. A coloured line with two fields. *)
Lemma Format_colored_fields_witness :
  exists head keys,
    NoDup keys /\ StronglySorted String.le keys
    /\ (Sample.Format Sample.env Sample.colored
          (Sample.entry logrus.InfoLevel "m"
             (<["b" := VString "x y"]> {["a" := VInt 1]}))).2 =
       Ok (head
           +:+ String.concat ""
                 (map (fun k => " " +:+ levelColor Sample.A Sample.palette logrus.InfoLevel
                                +:+ k +:+ ansi.Reset Sample.A +:+ "="
                                +:+ fmt.plus_v
                                      (logrus.index
                                         (prefixFieldClashes
                                            (<["b" := VString "x y"]> {["a" := VInt 1]})) k))
                      keys)
           +:+ nl, None).
Proof.
  destruct (Format_colored_fields Sample.isPrintTable Sample.Time_Format Sample.A
              Sample.env Sample.colored Sample.palette
              (Sample.entry logrus.InfoLevel "m"
                 (<["b" := VString "x y"]> {["a" := VInt 1]}))
              Sample_range_ok eq_refl eq_refl)
    as (head & keys & _ & Hn & Hs & E & _).
  exists head, keys. split; [exact Hn|]. split; [now apply Hs | exact E].
Defined.

(** X5, witness. Plain calls with and without a palette, on terminals
    with and without colours, a second apart. *)
Lemma Format_plain_reads_witness :
  Format Sample.isPrintTable Sample.Time_Format Sample.A Sample.env Sample.plain
    (Sample.entry logrus.InfoLevel "m" {["k" := VInt 1]})
  = Format Sample.isPrintTable Sample.Time_Format Sample2.mono Sample.env_later
      {| ForceColors := true; DisableColors := true; DisableTimestamp := false;
         ShortTimestamp := true; TimestampFormat := ""; DisableSorting := false;
         Colors := Some Sample2.green_info |}
      (Sample.entry logrus.InfoLevel "m" {["k" := VInt 1]}).
Proof.
  apply (Format_plain_reads Sample.Time_Format Sample.isPrintTable
           Sample.A Sample2.mono Sample.env Sample.env_later); reflexivity.
Defined.

(** X6, witness. Coloured calls with timestamps enabled and disabled. *)
Lemma Format_colored_reads_witness :
  Format Sample.isPrintTable Sample.Time_Format Sample.A Sample.env Sample.colored
    (Sample.entry logrus.InfoLevel "m" {["k" := VString "x y"]})
  = Format Sample2.isPrintNone Sample.Time_Format Sample.A Sample.env
      Sample2.colored_no_time
      (Sample.entry logrus.InfoLevel "m" {["k" := VString "x y"]}).
Proof.
  apply (Format_colored_reads Sample.Time_Format Sample.isPrintTable
           Sample2.isPrintNone Sample.A Sample.env Sample.colored
           Sample2.colored_no_time); reflexivity.
Defined.

(** X11, witness. An Info entry under two palettes that differ in the
    Debug role. *)
Lemma Format_palette_roles_witness :
  Format Sample.isPrintTable Sample.Time_Format Sample.A Sample.env
    {| ForceColors := true; DisableColors := false; DisableTimestamp := false;
       ShortTimestamp := false; TimestampFormat := ""; DisableSorting := false;
       Colors := Some Sample2.green_info |}
    (Sample.entry logrus.InfoLevel "m" ∅)
  = Format Sample.isPrintTable Sample.Time_Format Sample.A Sample.env
    {| ForceColors := true; DisableColors := false; DisableTimestamp := false;
       ShortTimestamp := false; TimestampFormat := ""; DisableSorting := false;
       Colors := Some Sample2.green_info_red_debug |}
    (Sample.entry logrus.InfoLevel "m" ∅).
Proof.
  apply (Format_palette_roles Sample.Time_Format Sample.isPrintTable Sample.A
           Sample.env (Sample.entry logrus.InfoLevel "m" ∅)); reflexivity.
Defined.

(** X8, witness. The message [[worker] started job ] against the prefix
    field [worker] with the message [started job]. *)
Lemma Format_bracket_as_prefix_field_witness :
  (Sample.Format Sample.env Sample.colored
     (Sample.entry logrus.InfoLevel "[worker] started job " {["k" := VInt 1]})).2
  = (Sample.Format Sample.env Sample.colored
       (Sample.entry logrus.InfoLevel "started job"
          (<["prefix" := VString "worker"]> {["k" := VInt 1]}))).2.
Proof.
  apply (Format_bracket_as_prefix_field Sample.isPrintTable Sample.Time_Format
           Sample.A Sample.env Sample.colored Sample.palette {["k" := VInt 1]}
           Sample.t0 logrus.InfoLevel "worker" " started job ").
  - exact Sample_range_ok.
  - reflexivity.
  - reflexivity.
  - reflexivity.
  - vm_compute. reflexivity.
  - unfold free_of. cbn. repeat constructor; discriminate.
  - unfold free_of. cbn. repeat constructor; discriminate.
  - discriminate.
Defined.

(** X9, witness. A plain line whose message holds an escape character. *)
Lemma Format_plain_clean_witness :
  exists body,
    (Sample.Format Sample.env Sample.plain
       (Sample.entry logrus.InfoLevel (Sample.esc +:+ "[31mred")
          {["k" := VString (Sample.esc +:+ "[0m")]})).2 = Ok (body +:+ nl, None)
    /\ clean body.
Proof.
  apply (Format_plain_clean Sample.isPrintTable Sample.Time_Format Sample.A
           Sample.env Sample.plain).
  - exact Sample_range_ok.
  - reflexivity.
  - intros k v H _.
    change (({["k" := VString (Sample.esc +:+ "[0m")]} : logrus.Fields) !! k = Some v) in H.
    apply lookup_singleton_Some in H as [<- <-].
    split; [|exact I]. apply Forall_cons. split; [split; [now vm_compute | discriminate]|].
    constructor.
Defined.

(** X10, witness. One and a half seconds after start. *)
Lemma Format_short_stamp_witness :
  exists rest,
    (Sample.Format Sample.env Sample.short (Sample.entry logrus.InfoLevel "m" ∅)).2 =
      Ok (prefixColor Sample.A Sample.palette +:+ "[" +:+ "0001" +:+ "]" +:+ rest, None).
Proof.
  destruct (Format_short_stamp Sample.isPrintTable Sample.Time_Format Sample.A
              Sample.env Sample.short Sample.palette
              (Sample.entry logrus.InfoLevel "m" ∅) eq_refl eq_refl eq_refl)
    as (rest & E & _).
  - split; [discriminate | reflexivity].
  - exists rest. exact E.
Defined.
